(** * EVChargeAdvisor-AI: the multi-factor scoring engine

    A shallow embedding of the scoring formulas of
    - [src/analysis/equity_analyzer.py]          (regional equity score),
    - [src/analysis/global_equity_analyzer.py]   (country-adaptive equity score),
    - [src/analysis/infrastructure_analyzer.py]  (coverage and distribution),
    - [src/data_access/overpass_api.py]          (convenience score),
    and of the properties stated about them.

    Numbers.  Python [int] values are integers ([Z], [nat] for lengths);
    Python [float] values are modelled by exact rationals ([Q]): every
    arithmetic operation is the real-number operation, and [round(x, n)] is
    rounding to [n] decimals, ties to the even neighbour.  Binary rounding
    of IEEE doubles is outside the model.  Rationals are compared with
    [==] ([Qeq]), never with Leibniz equality.

    Dictionaries with string keys are [gmap string _]; [d.get(k, v)] is
    [default v (d !! k)].  A dictionary literal that the code iterates is
    an association list in the order it is written.  A Python exception is
    the [Raise] of [outcome]. *)

From Stdlib Require Import QArith Qround Qminmax Lqa ZArith Lia Sorted.
From stdpp Require Import base option list strings gmap.

Local Open Scope Z_scope.
Local Open Scope Q_scope.

(** ** Exceptions *)

Inductive exn := ZeroDivisionError | TypeError.

Inductive outcome (A : Type) :=
  | Ok (a : A)
  | Raise (e : exn).
Arguments Ok {A} a.
Arguments Raise {A} e.

#[global] Instance outcome_ret : MRet outcome := fun A a => Ok a.
#[global] Instance outcome_bind : MBind outcome := fun A B f m =>
  match m with
  | Ok a => f a
  | Raise e => Raise e
  end.

Definition returns {A} (m : outcome A) : Prop := exists a, m = Ok a.

(** ** Python numbers *)

Module PyNum.

(** Comparisons of the source, as booleans. *)
Definition geb (x y : Q) : bool := Qle_bool y x.
Definition leb (x y : Q) : bool := Qle_bool x y.
Definition ltb (x y : Q) : bool := negb (Qle_bool y x).
Definition gtb (x y : Q) : bool := negb (Qle_bool x y).
Definition eqb (x y : Q) : bool := Qeq_bool x y.

(** Python's [min] and [max] on two arguments return the first one on
    a tie; up to [==] that is the usual minimum and maximum. *)
Definition pymin (x y : Q) : Q := if ltb y x then y else x.
Definition pymax (x y : Q) : Q := if gtb y x then y else x.

(** Nearest integer, ties to even. *)
Definition round_half_even (x : Q) : Z :=
  let f := Qfloor x in
  let r := x - inject_Z f in
  if ltb r (1 # 2) then f
  else if gtb r (1 # 2) then (f + 1)%Z
  else if Z.even f then f else (f + 1)%Z.

(** [round(x, 1)] and [round(x, 2)]. *)
Definition round1 (x : Q) : Q := inject_Z (round_half_even (x * 10)) / 10.
Definition round2 (x : Q) : Q := inject_Z (round_half_even (x * 100)) / 100.

(** True division [x / y]. *)
Definition div (x y : Q) : outcome Q :=
  if eqb y 0 then Raise ZeroDivisionError else Ok (x / y).

(** [sum(xs)]: left to right, starting from 0. *)
Definition py_sum (xs : list Q) : Q := foldl Qplus 0 xs.

Definition of_int (n : Z) : Q := inject_Z n.
Definition of_len (n : nat) : Q := inject_Z (Z.of_nat n).

(** [math.pi], the double nearest to pi, exactly. *)
Definition math_pi : Q := 884279719003555 # 281474976710656.

End PyNum.

Import PyNum.

(** ** Dynamically typed values

    The values a demographics dictionary holds: [None], a number or a
    string. *)

Inductive pyval :=
  | PNone
  | PNum (q : Q)
  | PStr (s : string).

Definition truthy (v : pyval) : bool :=
  match v with
  | PNone => false
  | PNum q => negb (eqb q 0)
  | PStr s => negb (String.eqb s "")
  end.

(** [a or b] *)
Definition py_or (a b : pyval) : pyval := if truthy a then a else b.

(** [d.get(k, v)] and [d.get(k)] *)
Definition get (d : gmap string pyval) (k : string) (v : pyval) : pyval :=
  default v (d !! k).
Definition get_none (d : gmap string pyval) (k : string) : pyval := get d k PNone.

(** A value used in arithmetic or in an order comparison with a number
    must be a number. *)
Definition as_num (v : pyval) : outcome Q :=
  match v with
  | PNum q => Ok q
  | _ => Raise TypeError
  end.

(** A value used on the right of [in] with a string on the left must be
    a string. *)
Definition as_str (v : pyval) : outcome string :=
  match v with
  | PStr s => Ok s
  | _ => Raise TypeError
  end.

(** [sub in s] on strings. *)
Fixpoint contains (sub s : string) : bool :=
  String.prefix sub s ||
  match s with
  | EmptyString => false
  | String _ s' => contains sub s'
  end.

(** ** Score results

    The dictionary the equity scorers return: [score], [grade], [rating]
    and the [components] breakdown. *)

Record ScoreResult := mkScore {
  score : Q;
  grade : string;
  rating : string;
  components : gmap string Q
}.

(** [components[k]]: the keys the scorers read back are the keys they have
    just stored, so the default is never used. *)
Definition item (components : gmap string Q) (k : string) : Q :=
  default 0 (components !! k).

(** [config/settings.py] *)
Definition EQUITY_WEIGHTS : gmap string Q :=
  <["population_density" := 0.20]>
  (<["vehicle_access" := 0.20]>
  (<["poverty" := 0.25]>
  (<["income" := 0.35]> ∅))).

(** ** Census rates ([census_client.py], [get_equity_metrics]) *)

Module Census.

(** [rate = 0; if county.get(den) and county[den] > 0:
     rate = (county.get(num, 0) / county[den]) * 100], then
    [round(rate, 2)]. *)
Definition guarded_rate (county : gmap string pyval) (num den : string) : outcome Q :=
  if truthy (get_none county den) then
    universe ← as_num (get_none county den);
    if gtb universe 0 then
      part ← as_num (get county num (PNum 0));
      q ← div part universe;
      Ok (round2 (q * 100))
    else Ok (round2 0)
  else Ok (round2 0).

Definition poverty_rate (county : gmap string pyval) : outcome Q :=
  guarded_rate county "population_below_poverty" "poverty_universe".

Definition no_vehicle_rate (county : gmap string pyval) : outcome Q :=
  guarded_rate county "households_no_vehicle" "total_households_vehicles".

End Census.

(** ** Regional equity scorer ([equity_analyzer.py]) *)

Module Equity.

(** [analyze_county_equity], the stations-per-capita line:
    [(station_count / population * 1000) if population > 0 else 0]. *)
Definition stations_per_1000 (station_count : nat) (population : Z) : outcome Q :=
  if (population >? 0)%Z
  then q ← div (of_len station_count) (of_int population); Ok (q * 1000)
  else Ok 0.

(** 1. Access score (based on stations per capita). *)
Definition access_score (stations_per_1000 : Q) : Q :=
  if geb stations_per_1000 1.0 then 100
  else if geb stations_per_1000 0.5 then 70 + (stations_per_1000 - 0.5) * 60
  else if geb stations_per_1000 0.1 then 30 + (stations_per_1000 - 0.1) * 100
  else stations_per_1000 * 300.

(** 2. Affordability score (inverse of poverty rate). *)
Definition affordability_score (poverty_rate : Q) : Q :=
  if leb poverty_rate 5 then 100
  else if leb poverty_rate 10 then 80 - (poverty_rate - 5) * 4
  else if leb poverty_rate 20 then 60 - (poverty_rate - 10) * 3
  else pymax (30 - (poverty_rate - 20) * 1.5) 0.

(** 3. Mobility score (inverse of no-vehicle rate). *)
Definition mobility_score (no_vehicle_rate : Q) : Q :=
  if leb no_vehicle_rate 5 then 90
  else if leb no_vehicle_rate 10 then 70 + (10 - no_vehicle_rate) * 4
  else if leb no_vehicle_rate 20 then 50 + (20 - no_vehicle_rate) * 2
  else pymax (50 - (no_vehicle_rate - 20)) 20.

(** 4. Income alignment score. *)
Definition national_median : Q := 75000.

Definition income_score (stations_per_1000 median_income : Q) : Q :=
  let income_ratio := median_income / national_median in
  if geb income_ratio 1.5 then pymin (access_score stations_per_1000 * 1.1) 100
  else if geb income_ratio 0.8 then 70 + (income_ratio - 0.8) * 43
  else if ltb stations_per_1000 0.3 then 40 else 60.

(** The component dictionary, filled in the order of the source. *)
Definition equity_components
    (stations_per_1000 median_income poverty_rate no_vehicle_rate : Q)
    : gmap string Q :=
  <["income_alignment" := round1 (income_score stations_per_1000 median_income)]>
  (<["mobility" := round1 (mobility_score no_vehicle_rate)]>
  (<["affordability" := round1 (affordability_score poverty_rate)]>
  (<["access" := pymin (round1 (access_score stations_per_1000)) 100]> ∅))).

(** The weighted composite of a component dictionary. *)
Definition weighted_composite (weights components : gmap string Q) : Q :=
  item components "access" * default 0.35 (weights !! "income") +
  item components "affordability" * default 0.25 (weights !! "poverty") +
  item components "mobility" * default 0.20 (weights !! "vehicle_access") +
  item components "income_alignment" * default 0.20 (weights !! "population_density").

Definition equity_grade (composite : Q) : string * string :=
  if geb composite 85 then ("A", "Excellent")
  else if geb composite 70 then ("B", "Good")
  else if geb composite 55 then ("C", "Fair")
  else if geb composite 40 then ("D", "Poor")
  else ("F", "Critical").

Definition _calculate_equity_score
    (stations_per_1000 median_income poverty_rate no_vehicle_rate : Q)
    : ScoreResult :=
  let components :=
    equity_components stations_per_1000 median_income poverty_rate no_vehicle_rate in
  let composite := weighted_composite EQUITY_WEIGHTS components in
  let '(grade, rating) := equity_grade composite in
  {| score := round1 composite;
     grade := grade;
     rating := rating;
     components := components |}.

(** Scenario A: population 851036 and 50 stations, that is 12500/212759
    stations per 1000; median income 136689, poverty rate 10.48,
    no-vehicle rate 4.12. *)
Definition scenario_A_density : Q := 12500 # 212759.

Definition scenario_A : ScoreResult :=
  _calculate_equity_score scenario_A_density 136689 10.48 4.12.

End Equity.

(** ** Global equity scorer ([global_equity_analyzer.py]) *)

Module GlobalEquity.

(** The benchmark of stations per square kilometre for an income level. *)
Definition station_benchmark (income_level : string) : Q :=
  if contains "High" income_level then 0.5
  else if contains "Middle" income_level then 0.2
  else 0.05.

(** 1. Infrastructure access: density over the search disk against the
    benchmark, capped at 200%.  The area is not tested before the
    division.  The square is the exact one: at radius 0 it is 0 as in the
    source; that [radius_km ** 2] also underflows to [0.0] for a non-zero
    double below about 1.5e-162 in magnitude is outside the model. *)
Definition access_component (station_count : nat) (radius_km : Q)
    (income_level : string) : outcome Q :=
  let area := 3.14159 * radius_km ^ 2 in
  station_density ← div (of_len station_count) area;
  let access_ratio := pymin (station_density / station_benchmark income_level) 2.0 in
  Ok (pymin (round1 (access_ratio * 50)) 100).

(** 2. Economic readiness. *)
Definition economic_readiness (income : Q) : Q :=
  if geb income 50000 then 100
  else if geb income 30000 then 80
  else if geb income 15000 then 60
  else if geb income 5000 then 40
  else 20.

(** 3. Poverty / affordability. *)
Definition affordability (poverty_rate : Q) : Q :=
  if leb poverty_rate 5 then 100
  else if leb poverty_rate 10 then 80
  else if leb poverty_rate 20 then 60
  else if leb poverty_rate 30 then 40
  else 20.

(** 4. Infrastructure readiness (for non-US). *)
Definition infrastructure_readiness (demographics : gmap string pyval)
    (country_code : string) : outcome Q :=
  if negb (String.eqb country_code "USA") then
    ev_readiness ← as_num (get demographics "ev_readiness" (PNum 50));
    electricity ← as_num (get demographics "electricity_access" (PNum 100));
    Ok (round1 ((ev_readiness + electricity) / 2))
  else Ok 90.

Definition weights : list (string * Q) :=
  [("access", 0.35); ("economic_readiness", 0.25);
   ("affordability", 0.20); ("infrastructure_readiness", 0.20)].

(** [sum(components[k] * weights[k] for k in weights.keys())] *)
Definition weighted_total (components : gmap string Q) : Q :=
  py_sum (map (fun kw => item components kw.1 * kw.2) weights).

Definition global_grade (total_score : Q) : string * string :=
  if geb total_score 80 then ("A", "Excellent")
  else if geb total_score 65 then ("B", "Good")
  else if geb total_score 50 then ("C", "Fair")
  else if geb total_score 35 then ("D", "Poor")
  else ("F", "Critical").

Definition _calculate_global_equity_score
    (station_count : nat) (demographics : gmap string pyval)
    (radius_km : Q) (country_code : string) : outcome ScoreResult :=
  income_level ← as_str (get demographics "income_level" (PStr "Middle Income"));
  access ← access_component station_count radius_km income_level;
  let components : gmap string Q := <["access" := access]> ∅ in
  income ← as_num (get demographics "income_per_capita" (PNum 0));
  let components := <["economic_readiness" := economic_readiness income]> components in
  poverty_rate ← as_num (py_or (get_none demographics "poverty_rate") (PNum 0));
  let components := <["affordability" := affordability poverty_rate]> components in
  readiness ← infrastructure_readiness demographics country_code;
  let components := <["infrastructure_readiness" := readiness]> components in
  let total_score := weighted_total components in
  let '(grade, rating) := global_grade total_score in
  Ok {| score := round1 total_score;
        grade := grade;
        rating := rating;
        components := components |}.

(** A World Bank profile without a poverty figure. *)
Definition thailand : gmap string pyval :=
  <["poverty_rate" := PNone]>
  (<["income_per_capita" := PNum 7000]>
  (<["income_level" := PStr "Upper Middle Income"]> ∅)).

End GlobalEquity.

(** ** Coverage and distribution ([infrastructure_analyzer.py]) *)

Module Infrastructure.

(** A parsed station, as far as the coverage analysis reads it.
    [location = None] is a station without the key; a coordinate [None]
    is the value [None] that [parse_station] stores when the API gave
    none.  [num_points = None] is a station without the key. *)
Record Location := mkLocation {
  latitude : option Q;
  longitude : option Q
}.

Record Station := mkStation {
  location : option Location;
  num_points : option Z
}.

Record Quadrants := mkQuadrants { NE : Z; NW : Z; SE : Z; SW : Z }.

Record Distribution := mkDistribution {
  dist_score : Q;
  dist_rating : string;
  dist_quadrants : option Quadrants
}.

(** [[s["location"][key] for s in stations if s.get("location")]] *)
Definition coordinates (key : Location -> option Q) (stations : list Station)
    : list (option Q) :=
  omap (fun s => key <$> location s) stations.

(** [sum] over coordinates: adding [None] is a [TypeError]. *)
Definition sum_coordinates (xs : list (option Q)) : outcome Q :=
  foldl (fun acc x => a ← acc;
                      match x with
                      | Some q => Ok (a + q)
                      | None => Raise TypeError
                      end) (Ok 0) xs.

(** One turn of the counting loop; [if lat and lon] lets through
    coordinates that are neither [None] nor zero. *)
Definition count_station (center_lat center_lon : Q) (quadrants : Quadrants)
    (s : Station) : Quadrants :=
  match location s with
  | Some loc =>
      match latitude loc, longitude loc with
      | Some lat, Some lon =>
          if truthy (PNum lat) && truthy (PNum lon) then
            if geb lat center_lat then
              if geb lon center_lon
              then mkQuadrants (NE quadrants + 1) (NW quadrants) (SE quadrants) (SW quadrants)
              else mkQuadrants (NE quadrants) (NW quadrants + 1) (SE quadrants) (SW quadrants)
            else
              if geb lon center_lon
              then mkQuadrants (NE quadrants) (NW quadrants) (SE quadrants + 1) (SW quadrants)
              else mkQuadrants (NE quadrants) (NW quadrants) (SE quadrants) (SW quadrants + 1)
          else quadrants
      | _, _ => quadrants
      end
  | None => quadrants
  end.

Definition count_quadrants (center_lat center_lon : Q) (stations : list Station)
    : Quadrants :=
  foldl (count_station center_lat center_lon) (mkQuadrants 0 0 0 0) stations.

Definition quadrant_values (q : Quadrants) : list Z := [NE q; NW q; SE q; SW q].

(** Evenness of four quadrant counts (0-1, where 1 is perfectly even). *)
Definition evenness (quadrants : Quadrants) : outcome Q :=
  let total := foldl Z.add 0%Z (quadrant_values quadrants) in
  let expected := of_int total / 4 in
  let variance :=
    py_sum (map (fun v => (of_int v - expected) ^ 2) (quadrant_values quadrants)) / 4 in
  let max_variance := (of_int total - expected) ^ 2 in
  if eqb max_variance 0 then Ok 1.0
  else r ← div variance max_variance; Ok (1 - r).

Definition distribution_rating (score : Q) : string :=
  if geb score 0.8 then "Even"
  else if geb score 0.6 then "Moderate"
  else if geb score 0.4 then "Uneven"
  else "Clustered".

Definition _calculate_distribution (stations : list Station) : outcome Distribution :=
  if (length stations <? 4)%nat then
    Ok (mkDistribution 0.5 "Insufficient data" None)
  else
    let lats := coordinates latitude stations in
    let lons := coordinates longitude stations in
    match lats, lons with
    | [], _ | _, [] => Ok (mkDistribution 0.5 "No location data" None)
    | _, _ =>
        sum_lats ← sum_coordinates lats;
        center_lat ← div sum_lats (of_len (length lats));
        sum_lons ← sum_coordinates lons;
        center_lon ← div sum_lons (of_len (length lons));
        let quadrants := count_quadrants center_lat center_lon stations in
        score ← evenness quadrants;
        Ok (mkDistribution (round2 score) (distribution_rating score) (Some quadrants))
    end.

Record Coverage := mkCoverage {
  area_sq_km : Q;
  station_density : Q;
  connector_density : Q;
  (* "stations_per_sq_km" and "connectors_per_sq_km" repeat the two
     densities *)
  distribution_score : Q;
  distribution_rating_of : string;
  coverage_rating : string;
  coverage_score : Z
}.

Definition coverage_rating_of (density : Q) : string * Z :=
  if geb density 5 then ("Excellent", 5%Z)
  else if geb density 3 then ("Good", 4%Z)
  else if geb density 1 then ("Moderate", 3%Z)
  else if geb density 0.5 then ("Limited", 2%Z)
  else ("Poor", 1%Z).

(** [None] is the dictionary [{"density": 0, "distribution": "none"}]
    returned for an empty station list.  The area is not tested before
    the two divisions; its square is the exact one, as in
    [GlobalEquity.access_component]. *)
Definition _analyze_coverage (stations : list Station) (radius_km : Q)
    : outcome (option Coverage) :=
  match stations with
  | [] => Ok None
  | _ =>
      let area_sq_km := math_pi * radius_km ^ 2 in
      density ← div (of_len (length stations)) area_sq_km;
      let total_connectors :=
        foldl Z.add 0%Z (map (fun s => default 1%Z (num_points s)) stations) in
      connector_density ← div (of_int total_connectors) area_sq_km;
      distribution ← _calculate_distribution stations;
      let '(rating, score) := coverage_rating_of density in
      Ok (Some (mkCoverage (round2 area_sq_km) (round2 density)
                  (round2 connector_density)
                  (dist_score distribution) (dist_rating distribution)
                  rating score))
  end.

(** The evenness formula on the four counts, as rationals. *)
Definition variance_of (a b c d : Q) : Q :=
  let e := (a + b + c + d) / 4 in
  ((a - e) * (a - e) + (b - e) * (b - e) + (c - e) * (c - e) + (d - e) * (d - e)) / 4.

Definition max_variance_of (a b c d : Q) : Q :=
  let t := a + b + c + d in (t - t / 4) * (t - t / 4).

(** Sample station lists: four stations at one place, and scenario B
    with one station in each quadrant. *)
Definition station_at (lat lon : Q) : Station :=
  mkStation (Some (mkLocation (Some lat) (Some lon))) None.
Definition colocated : list Station :=
  [station_at 10 20; station_at 10 20; station_at 10 20; station_at 10 20].
Definition scenario_B : list Station :=
  [station_at 11 21; station_at 11 19; station_at 9 21; station_at 9 19].

End Infrastructure.

(** ** Convenience score ([overpass_api.py]) *)

Module Overpass.

Section Convenience.

(** A parsed point of interest; the score only counts them. *)
Context {POI : Type}.

(** [{cat: len(items) for cat, items in pois.items()}] *)
Definition category_counts (pois : gmap string (list POI)) : gmap string nat :=
  length <$> pois.

(** [counts.get(cat, 0)] *)
Definition count (counts : gmap string nat) (cat : string) : Q :=
  of_len (default 0%nat (counts !! cat)).

Definition category_scores (counts : gmap string nat) : list (string * Q) :=
  [("dining", pymin (count counts "dining" * 0.5) 2.5);
   ("shopping", pymin (count counts "shopping" * 0.3) 1.5);
   ("services", pymin (count counts "services" * 0.3) 1.5);
   ("transit", pymin (count counts "transit" * 0.5) 2.5);
   ("healthcare", pymin (count counts "healthcare" * 0.5) 1.0);
   ("entertainment", pymin (count counts "entertainment" * 0.5) 1.0)].

Definition _get_grade (score : Q) : string :=
  if geb score 8.5 then "A"
  else if geb score 7.0 then "B"
  else if geb score 5.0 then "C"
  else if geb score 3.0 then "D"
  else "F".

Record Convenience := mkConvenience {
  total_score : Q;
  max_score : Q;
  scores_by_category : list (string * Q);
  counts_by_category : gmap string nat;
  total_pois : nat;
  convenience_grade : string
}.

(** [calculate_convenience_score] after the fetch: [pois] is what
    [get_all_pois] returned. *)
Definition calculate_convenience_score (pois : gmap string (list POI))
    : Convenience :=
  let counts := category_counts pois in
  let scores := category_scores counts in
  let total_score := py_sum (map snd scores) in
  {| total_score := round1 total_score;
     max_score := 10.0;
     scores_by_category := scores;
     counts_by_category := counts;
     total_pois := map_fold (fun _ n acc => (acc + n)%nat) 0%nat counts;
     convenience_grade := _get_grade total_score |}.

(** The total as the specification words it: the sum over the six
    categories of min(count * per-unit weight, cap). *)
Definition capped_sum (pois : gmap string (list POI)) : Q :=
  let n := count (category_counts pois) in
  Qmin (n "dining" * 0.5) 2.5 + Qmin (n "shopping" * 0.3) 1.5
  + Qmin (n "services" * 0.3) 1.5 + Qmin (n "transit" * 0.5) 2.5
  + Qmin (n "healthcare" * 0.5) 1.0 + Qmin (n "entertainment" * 0.5) 1.0.

End Convenience.

(** Ten dining places and nothing else. *)
Definition ten_dining : gmap string (list unit) := <["dining" := replicate 10 tt]> ∅.

End Overpass.

(** ** Income level, access assessment and recommendations
    ([equity_analyzer.py], helper analysis methods) *)

Module EquityAssessment.

Record IncomeLevel := mkIncomeLevel {
  level : string;
  percentile : Z
}.

Definition _analyze_income_level (median_income : Q) : IncomeLevel :=
  if geb median_income 150000 then mkIncomeLevel "Very High" 95
  else if geb median_income 100000 then mkIncomeLevel "High" 80
  else if geb median_income 75000 then mkIncomeLevel "Upper Middle" 60
  else if geb median_income 50000 then mkIncomeLevel "Middle" 40
  else if geb median_income 35000 then mkIncomeLevel "Lower Middle" 25
  else mkIncomeLevel "Low" 10.

(** [x in xs] on a list of strings. *)
Definition in_list (x : string) (xs : list string) : bool :=
  existsb (String.eqb x) xs.

(** [s.lower()] on ASCII text. *)
Definition lower_ascii (c : Ascii.ascii) : Ascii.ascii :=
  let n := Ascii.nat_of_ascii c in
  if (65 <=? n)%nat && (n <=? 90)%nat then Ascii.ascii_of_nat (n + 32) else c.

Fixpoint lower (s : string) : string :=
  match s with
  | EmptyString => EmptyString
  | String c s' => String (lower_ascii c) (lower s')
  end.

Record AccessAssessment := mkAccessAssessment {
  access_level : string;
  access_adequate : bool;
  need_level : string;
  priority : string;
  priority_score : Z;
  description : string
}.

Definition _assess_access_level (stations_per_1000 poverty_rate : Q)
    : AccessAssessment :=
  let '(access_level, access_adequate) :=
    if geb stations_per_1000 0.8 then ("High", true)
    else if geb stations_per_1000 0.4 then ("Moderate", true)
    else if geb stations_per_1000 0.1 then ("Limited", false)
    else ("Very Limited", false) in
  let need_level :=
    if geb poverty_rate 20 then "Critical"
    else if geb poverty_rate 15 then "High"
    else if geb poverty_rate 10 then "Moderate"
    else "Standard" in
  let '(priority, priority_score) :=
    if negb access_adequate && in_list need_level ["Critical"; "High"]
    then ("Urgent", 5%Z)
    else if negb access_adequate then ("High", 4%Z)
    else if in_list need_level ["Critical"; "High"] then ("Moderate", 3%Z)
    else ("Standard", 2%Z) in
  {| access_level := access_level;
     access_adequate := access_adequate;
     need_level := need_level;
     priority := priority;
     priority_score := priority_score;
     description :=
       access_level ++ " access with " ++ lower need_level ++ " community need" |}.

Record Recommendation := mkRecommendation {
  rec_priority : string;
  rec_category : string;
  rec_text : string;
  rec_rationale : string
}.

(** Whether a list holds a recommendation of a given category. *)
Definition has_category (c : string) (rs : list Recommendation) : bool :=
  existsb (fun r => String.eqb (rec_category r) c) rs.

Section Recommendations.

(** The text of a number inside an f-string: [{x:.2f}] and [{x}].  The
    recommendations never read it back. *)
Context (format_2f format_value : Q -> string).

Definition _generate_recommendations
    (equity_score poverty_rate stations_per_1000 : Q) (income_level : string)
    : list Recommendation :=
  let recommendations := [] in
  let recommendations :=
    if ltb stations_per_1000 0.3 then
      recommendations ++
      [mkRecommendation "High" "Infrastructure Expansion"
         "Significantly increase charging station deployment"
         ("Current density (" ++ format_2f stations_per_1000
            ++ "/1000) is below minimum threshold")]
    else recommendations in
  let recommendations :=
    if gtb poverty_rate 15 then
      recommendations ++
      [mkRecommendation "High" "Affordability"
         "Implement subsidized charging programs"
         ("High poverty rate (" ++ format_value poverty_rate
            ++ "%) requires affordability measures");
       mkRecommendation "Medium" "Location Strategy"
         "Prioritize charging at affordable housing and public facilities"
         "Increase access for low-income residents"]
    else recommendations in
  let recommendations :=
    if in_list income_level ["Low"; "Lower Middle"] then
      recommendations ++
      [mkRecommendation "Medium" "Financial Support"
         "Partner with utilities for reduced-rate charging"
         "Make EV ownership more accessible for lower-income households"]
    else recommendations in
  let recommendations :=
    if ltb equity_score 50 then
      recommendations ++
      [mkRecommendation "High" "Equity Focus"
         "Conduct detailed equity mapping study"
         ("Low equity score (" ++ format_value equity_score
            ++ ") indicates significant disparities")]
    else recommendations in
  if (length recommendations <? 3)%nat then
    recommendations ++
    [mkRecommendation "Standard" "Community Engagement"
       "Engage community in charging location planning"
       "Ensure infrastructure meets local needs"]
  else recommendations.





End Recommendations.

End EquityAssessment.

(** ** Country profiles ([worldbank_api.py], [get_country_profile]) *)

Module WorldBank.

(** [raw]: the indicator values [get_country_data] collected, by friendly
    name.  Only non-null values are stored, and World Bank indicator
    values are numbers. *)

(** [raw.get(k, d)] *)
Definition indicator (raw : gmap string Q) (k : string) (d : Q) : Q :=
  default d (raw !! k).

(** [x or d] on numbers *)
Definition num_or (x d : Q) : Q := if eqb x 0 then d else x.

(** [int(x)]: truncation towards zero. *)
Definition int (x : Q) : Z := if ltb x 0 then Qceiling x else Qfloor x.

(** [round(x, 0)] *)
Definition round0 (x : Q) : Q := inject_Z (round_half_even x).

Definition income_level_of (gdp_pc : Q) : string :=
  if geb gdp_pc 40000 then "High Income"
  else if geb gdp_pc 12000 then "Upper Middle Income"
  else if geb gdp_pc 4000 then "Lower Middle Income"
  else "Low Income".

(** EV readiness score (simplified). *)
Definition ev_readiness_of (raw : gmap string Q) (gdp_pc urban : Q) : Q :=
  pymin 100
    (num_or (indicator raw "electricity_access_percent" 0) 0 * 0.3
     + pymin (gdp_pc / 500) 40
     + num_or urban 0 * 0.3).

(** The profile, as far as the equity analysis reads it: the
    ["gni_per_capita"], ["environment"], ["year"] and ["raw_data"] entries
    are left out. *)
Record Profile := mkProfile {
  country_name : string;
  population : Z;
  urban_percent : Q;
  vehicles_per_1000 : Q;
  gdp_per_capita : Q;
  income_level : string;
  poverty_rate : option Q;
  electricity_access : Q;
  ev_readiness_score : Q
}.

(** [None] is the ["status": "error"] profile of a country without
    data. *)
Definition get_country_profile (name : string) (raw : gmap string Q)
    : option Profile :=
  if decide (raw = ∅) then None
  else
    let population := indicator raw "total_population" 0 in
    let gdp_pc := indicator raw "gdp_per_capita" 0 in
    let poverty :=
      match raw !! "poverty_rate_national" with
      | Some x => if eqb x 0 then indicator raw "poverty_rate_extreme" 0 else x
      | None => indicator raw "poverty_rate_extreme" 0
      end in
    let urban := indicator raw "urban_population_percent" 50 in
    let vehicles := indicator raw "vehicles_per_1000" 0 in
    Some {|
      country_name := name;
      population := if eqb population 0 then 0%Z else int population;
      urban_percent := if eqb urban 0 then 0 else round1 urban;
      vehicles_per_1000 := if eqb vehicles 0 then 0 else round1 vehicles;
      gdp_per_capita := if eqb gdp_pc 0 then 0 else round0 gdp_pc;
      income_level := income_level_of gdp_pc;
      poverty_rate := if eqb poverty 0 then None else Some (round1 poverty);
      electricity_access :=
        round1 (num_or (indicator raw "electricity_access_percent" 0) 0);
      ev_readiness_score := round1 (ev_readiness_of raw gdp_pc urban)
    |}.

(** A sample record. *)
Definition thai_indicators : gmap string Q :=
  <["urban_population_percent" := 52.2]>
  (<["electricity_access_percent" := 100]>
  (<["gdp_per_capita" := 7070.5]>
  (<["total_population" := 71600000]> ∅))).

End WorldBank.

(** ** Demographics of the global analysis
    ([global_equity_analyzer.py], demographic data methods) *)

Module GlobalDemographics.

Definition _get_us_income_level (median_income : Q) : string :=
  if geb median_income 150000 then "Very High Income"
  else if geb median_income 100000 then "High Income"
  else if geb median_income 75000 then "Upper Middle Income"
  else if geb median_income 50000 then "Middle Income"
  else if geb median_income 35000 then "Lower Middle Income"
  else "Low Income".

Definition opt_num (x : option Q) : pyval :=
  match x with
  | Some q => PNum q
  | None => PNone
  end.

(** [_get_us_demographics] after the Census call; [equity_data] is what
    [get_equity_metrics] returned.  Any exception is caught and gives
    [None]. *)
Definition _get_us_demographics (equity_data : gmap string pyval)
    : option (gmap string pyval) :=
  if decide (equity_data = ∅) then None
  else
    match as_num (get equity_data "median_income" (PNum 0)) with
    | Ok median_income =>
        Some (<["region_name" := get equity_data "name" (PStr "Unknown")]>
             (<["data_level" := PStr "county"]>
             (<["no_vehicle_rate" := get equity_data "no_vehicle_rate" (PNum 0)]>
             (<["poverty_rate" := get equity_data "poverty_rate" (PNum 0)]>
             (<["income_level" := PStr (_get_us_income_level median_income)]>
             (<["income_per_capita" := PNum median_income]>
             (<["population" := get equity_data "population" (PNum 0)]> ∅)))))))
    | Raise _ => None
    end.

(** [_get_global_demographics] after the World Bank call. *)
Definition _get_global_demographics (profile : option WorldBank.Profile)
    : option (gmap string pyval) :=
  match profile with
  | None => None
  | Some p =>
      Some (<["region_name" := PStr (WorldBank.country_name p)]>
           (<["data_level" := PStr "country"]>
           (<["vehicles_per_1000" := PNum (WorldBank.vehicles_per_1000 p)]>
           (<["ev_readiness" := PNum (WorldBank.ev_readiness_score p)]>
           (<["electricity_access" := PNum (WorldBank.electricity_access p)]>
           (<["urban_percent" := PNum (WorldBank.urban_percent p)]>
           (<["poverty_rate" := opt_num (WorldBank.poverty_rate p)]>
           (<["income_level" := PStr (WorldBank.income_level p)]>
           (<["income_per_capita" := PNum (WorldBank.gdp_per_capita p)]>
           (<["population" := PNum (inject_Z (WorldBank.population p))]> ∅))))))))))
  end.

(** A sample of what [get_equity_metrics] returns. *)
Definition sample_metrics : gmap string pyval :=
  <["no_vehicle_rate" := PNum 4.12]>
  (<["poverty_rate" := PNum 10.48]>
  (<["median_income" := PNum 136689]>
  (<["population" := PNum 851036]>
  (<["name" := PStr "San Francisco County"]> ∅)))).

Section GlobalRecommendations.

(** The text of a number inside an f-string. *)
Context (format_count : nat -> string) (format_value : Q -> string).

Import EquityAssessment.

Definition _generate_global_recommendations
    (equity_score : Q) (demographics : gmap string pyval) (station_count : nat)
    : outcome (list Recommendation) :=
  let recommendations := [] in
  let income_level := get demographics "income_level" (PStr "") in
  let poverty_rate := py_or (get_none demographics "poverty_rate") (PNum 0) in
  let ev_readiness := get demographics "ev_readiness" (PNum 100) in
  let recommendations :=
    if (station_count <? 50)%nat then
      recommendations ++
      [mkRecommendation "High" "Infrastructure Expansion"
         "Significantly increase charging station deployment"
         ("Only " ++ format_count station_count ++ " stations found in search area")]
    else recommendations in
  level ← as_str income_level;
  let recommendations :=
    if contains "Low" level then
      recommendations ++
      [mkRecommendation "High" "Affordability"
         "Implement subsidized public charging programs"
         "Lower income level requires affordability measures";
       mkRecommendation "Medium" "Infrastructure"
         "Focus on grid reliability before EV expansion"
         "Stable electricity is prerequisite for EV adoption"]
    else recommendations in
  recommendations ←
    (if truthy poverty_rate then
       poverty ← as_num poverty_rate;
       Ok (if gtb poverty 15 then
             recommendations ++
             [mkRecommendation "High" "Equity"
                "Target charging infrastructure in underserved areas"
                ("Poverty rate of " ++ format_value poverty
                   ++ "% indicates equity concerns")]
           else recommendations)
     else Ok recommendations);
  readiness ← as_num ev_readiness;
  let recommendations :=
    if ltb readiness 50 then
      recommendations ++
      [mkRecommendation "Medium" "Policy"
         "Develop national EV adoption strategy"
         ("EV readiness score of " ++ format_value readiness
            ++ " indicates need for policy support")]
    else recommendations in
  Ok (if (length recommendations <? 3)%nat then
        recommendations ++
        [mkRecommendation "Standard" "Community Engagement"
           "Conduct community needs assessment for charging locations"
           "Ensure infrastructure meets local mobility patterns"]
      else recommendations).

End GlobalRecommendations.

End GlobalDemographics.


(** ** Operators and charging levels ([infrastructure_analyzer.py]) *)

Module StationAnalysis.

(** A field that [parse_station] may leave as [None]: [None] is a missing
    key, [Some None] the value [None]. *)
Definition field (A : Type) : Type := option (option A).

(** A parsed connection and a parsed station, as far as the operator and
    charging-level analyses read them. *)
Record Connection := mkConnection {
  power_kw : field Q;
  quantity : field Z
}.

Record StationInfo := mkStationInfo {
  operator_name : field string;
  points : field Z;
  connections : list Connection
}.

(** [d.get(k, v)] on a field: the default only replaces a missing key. *)
Definition field_get {A} (f : field A) (v : A) : option A :=
  match f with
  | None => Some v
  | Some x => x
  end.

(** An integer operand: [None] is a [TypeError]. *)
Definition as_int (x : option Z) : outcome Z :=
  match x with
  | Some z => Ok z
  | None => Raise TypeError
  end.

(** *** Charging levels *)

Record Levels := mkLevels {
  level1 : Z;      (* "Level 1 (Slow)", < 5 kW *)
  level2 : Z;      (* "Level 2 (Medium)", 5-22 kW *)
  level3 : Z;      (* "Level 3 (Fast)", 22-50 kW *)
  dc_fast : Z      (* "DC Fast (Ultra)", > 50 kW *)
}.

(** [conn.get("power_kw", 0) or 0] *)
Definition power_of (c : Connection) : Q :=
  match field_get (power_kw c) 0 with
  | Some p => if eqb p 0 then 0 else p
  | None => 0
  end.

(** One turn of the inner loop. *)
Definition count_connection (levels : Levels) (c : Connection) : outcome Levels :=
  let power := power_of c in
  qty ← as_int (field_get (quantity c) 1%Z);
  Ok (if ltb power 5 then
        mkLevels (level1 levels + qty) (level2 levels) (level3 levels) (dc_fast levels)
      else if ltb power 22 then
        mkLevels (level1 levels) (level2 levels + qty) (level3 levels) (dc_fast levels)
      else if leb power 50 then
        mkLevels (level1 levels) (level2 levels) (level3 levels + qty) (dc_fast levels)
      else
        mkLevels (level1 levels) (level2 levels) (level3 levels) (dc_fast levels + qty)).

(** A loop whose body may raise. *)
Fixpoint for_each {A S} (body : S -> A -> outcome S) (s : S) (xs : list A)
    : outcome S :=
  match xs with
  | [] => Ok s
  | x :: xs' => s' ← body s x; for_each body s' xs'
  end.

Record LevelReport := mkLevelReport {
  level_counts : Levels;
  level_percentages : list Q;
  levels_total : Z;
  fast_charging_available : bool
}.

Definition _analyze_charging_levels (stations : list StationInfo)
    : outcome LevelReport :=
  levels ← for_each (fun levels s => for_each count_connection levels (connections s))
             (mkLevels 0 0 0 0) stations;
  let counts := [level1 levels; level2 levels; level3 levels; dc_fast levels] in
  let total := foldl Z.add 0%Z counts in
  percentages ←
    for_each (fun acc count =>
                q ← div (of_int count) (of_int (Z.max total 1));
                Ok (acc ++ [round1 (q * 100)])) [] counts;
  Ok {| level_counts := levels;
        level_percentages := percentages;
        levels_total := total;
        fast_charging_available := (level3 levels + dc_fast levels >? 0)%Z |}.

(** The quantities of all connections of a station list, with the
    default 1 for a missing key, and their sum. *)
Definition quantities (stations : list StationInfo) : list (option Z) :=
  flat_map (fun s => map (fun c => field_get (quantity c) 1%Z) (connections s))
    stations.

Definition quantity_sum (qs : list (option Z)) : Z :=
  foldr (fun q acc => (default 0%Z q + acc)%Z) 0%Z qs.

(** *** Operators *)

(** An operator name as a dictionary key; [None] is the key [None]. *)
Definition op_key : Type := option string.

Record OperatorData := mkOperatorData {
  op_count : Z;
  op_connectors : Z
}.

(** [operators[name]["count"] += 1; operators[name]["connectors"] += pts]
    on the insertion-ordered dictionary; a new name starts from 0 and 0. *)
Fixpoint bump (name : op_key) (pts : Z) (operators : list (op_key * OperatorData))
    : list (op_key * OperatorData) :=
  match operators with
  | [] => [(name, mkOperatorData (0 + 1) (0 + pts))]
  | (name', data) :: rest =>
      if decide (name = name')
      then (name', mkOperatorData (op_count data + 1) (op_connectors data + pts)) :: rest
      else (name', data) :: bump name pts rest
  end.

(** [sorted(items, key=count, reverse=True)]: a stable sort, so operators
    with equal counts keep their order. *)
Fixpoint insert_by_count (x : op_key * OperatorData)
    (sorted : list (op_key * OperatorData)) : list (op_key * OperatorData) :=
  match sorted with
  | [] => [x]
  | y :: rest =>
      if (op_count x.2 <? op_count y.2)%Z
      then y :: insert_by_count x rest
      else x :: y :: rest
  end.

Definition sort_by_count (items : list (op_key * OperatorData))
    : list (op_key * OperatorData) :=
  foldr insert_by_count [] items.

Record Share := mkShare {
  share_stations : Z;
  share_connectors : Z;
  market_share : Q
}.

Record OperatorReport := mkOperatorReport {
  total_operators : nat;
  distribution : list (op_key * Share);
  top_operator : op_key;
  hhi_index : Q;
  market_concentration : string
}.

Definition count_operators (stations : list StationInfo)
    : outcome (list (op_key * OperatorData)) :=
  for_each (fun operators s =>
              let name := field_get (operator_name s) "Unknown" in
              pts ← as_int (field_get (points s) 1%Z);
              Ok (bump name pts operators)) [] stations.

Definition _analyze_operators (stations : list StationInfo)
    : outcome OperatorReport :=
  operators ← count_operators stations;
  let sorted_ops := sort_by_count operators in
  let total_stations := length stations in
  distribution ←
    for_each (fun acc item =>
                q ← div (of_int (op_count item.2)) (of_len total_stations);
                Ok (acc ++ [(item.1,
                             mkShare (op_count item.2) (op_connectors item.2)
                               (round1 (q * 100)))]))
      [] (take 10 sorted_ops);
  let hhi :=
    py_sum (map (fun d => (market_share d.2 / 100) ^ 2) distribution) * 10000 in
  let concentration :=
    if ltb hhi 1500 then "Competitive"
    else if ltb hhi 2500 then "Moderate"
    else "Concentrated" in
  Ok {| total_operators := length operators;
        distribution := distribution;
        top_operator := match sorted_ops with
                        | [] => Some "N/A"
                        | first :: _ => first.1
                        end;
        hhi_index := WorldBank.round0 hhi;
        market_concentration := concentration |}.

(** The stations counted in an operator table and in a distribution, and
    the order the distribution is listed in. *)
Definition counted (operators : list (op_key * OperatorData)) : Z :=
  foldr (fun x acc => (op_count x.2 + acc)%Z) 0%Z operators.

Definition listed (distribution : list (op_key * Share)) : Z :=
  foldr (fun x acc => (share_stations x.2 + acc)%Z) 0%Z distribution.

Definition larger_first (a b : op_key * Share) : Prop :=
  (share_stations b.2 <= share_stations a.2)%Z.

(** A sample: two stations of one operator and one of another. *)
Definition sample_stations : list StationInfo :=
  [mkStationInfo (Some (Some "ChargePoint")) (Some (Some 2%Z))
     [mkConnection (Some (Some 7.4)) (Some (Some 2%Z))];
   mkStationInfo (Some (Some "Tesla")) (Some (Some 2%Z))
     [mkConnection (Some (Some 150)) (Some (Some 2%Z))];
   mkStationInfo (Some (Some "ChargePoint")) None
     [mkConnection (Some None) None]].

End StationAnalysis.

(** ** Categorising points of interest ([overpass_api.py],
    [_categorize_elements]) *)

Module Categorize.

Import EquityAssessment.

(** An Overpass element.  A tag that is absent reads as the empty string
    ([tags.get(k, "")]); nodes carry [lat]/[lon], ways a [center]. *)
Record Element := mkElement {
  el_id : Z;
  el_name : option string;
  amenity : string;
  shop : string;
  highway : string;
  railway : string;
  lat : option Q;
  lon : option Q;
  center_lat : option Q;
  center_lon : option Q
}.

Definition AMENITY_CATEGORIES : gmap string (list string) :=
  <["entertainment" := ["cinema"; "theatre"; "museum"; "library"] ]>
  (<["healthcare" := ["hospital"; "clinic"; "doctors"; "dentist"] ]>
  (<["parking" := ["parking"; "parking_entrance"] ]>
  (<["transit" := ["bus_stop"; "subway_entrance"; "train_station"; "tram_stop"] ]>
  (<["services" := ["bank"; "atm"; "pharmacy"; "post_office"] ]>
  (<["shopping" := ["supermarket"; "convenience"; "mall"; "shop"] ]>
  (<["dining" := ["restaurant"; "cafe"; "fast_food"; "food_court"; "bar"] ]> ∅)))))).

(** [self.AMENITY_CATEGORIES[cat]] *)
Definition amenities (cat : string) : list string :=
  default [] (AMENITY_CATEGORIES !! cat).

(** [a or b] on coordinates and on tag strings. *)
Definition coordinate_or (a b : option Q) : option Q :=
  match a with
  | Some x => if eqb x 0 then b else Some x
  | None => b
  end.

Definition string_or (a b : string) : string :=
  if String.eqb a "" then b else a.

Definition nonempty (s : string) : bool := negb (String.eqb s "").

(** The coordinates of an element, when [not lat or not lon] does not
    skip it. *)
Definition located (e : Element) : option (Q * Q) :=
  match coordinate_or (lat e) (center_lat e), coordinate_or (lon e) (center_lon e) with
  | Some y, Some x => if negb (eqb y 0) && negb (eqb x 0) then Some (y, x) else None
  | _, _ => None
  end.

Record Parsed := mkParsed {
  p_id : Z;
  p_name : string;
  p_latitude : Q;
  p_longitude : Q;
  p_type : string;
  p_tags : Element;
  p_transit_type : option string
}.

(** The branch of the categorising chain an element takes. *)
Definition category_of (e : Element) : string :=
  if in_list (amenity e) (amenities "dining") then "dining"
  else if in_list (amenity e) (amenities "services") || nonempty (shop e) then
    (if nonempty (shop e) then "shopping" else "services")
  else if in_list (amenity e) (amenities "healthcare") then "healthcare"
  else if in_list (amenity e) (amenities "entertainment") then "entertainment"
  else if String.eqb (highway e) "bus_stop" || nonempty (railway e) then "transit"
  else "other".

Definition parse (e : Element) (y x : Q) : Parsed :=
  {| p_id := el_id e;
     p_name := default "Unnamed" (el_name e);
     p_latitude := y;
     p_longitude := x;
     p_type := string_or (amenity e) (string_or (shop e)
                 (string_or (highway e) (railway e)));
     p_tags := e;
     p_transit_type :=
       if String.eqb (category_of e) "transit"
       then Some (string_or (highway e) (railway e)) else None |}.

Definition empty_categories : gmap string (list Parsed) :=
  <["other" := nil]> (<["entertainment" := nil]> (<["healthcare" := nil]>
  (<["transit" := nil]> (<["services" := nil]> (<["shopping" := nil]>
  (<["dining" := nil]> ∅)))))).

(** One turn of the loop: [categories[cat].append(parsed)]. *)
Definition categorize_element (categories : gmap string (list Parsed)) (e : Element)
    : gmap string (list Parsed) :=
  match located e with
  | Some (y, x) =>
      let cat := category_of e in
      <[cat := default [] (categories !! cat) ++ [parse e y x]]> categories
  | None => categories
  end.

Definition _categorize_elements (elements : list Element)
    : gmap string (list Parsed) :=
  foldl categorize_element empty_categories elements.

(** The elements of one category, in the order they came. *)
Definition parsed_in (cat : string) (elements : list Element) : list Parsed :=
  omap (fun e =>
          match located e with
          | Some (y, x) =>
              if String.eqb (category_of e) cat then Some (parse e y x) else None
          | None => None
          end) elements.

Definition is_located (e : Element) : bool :=
  match located e with Some _ => true | None => false end.

(** A supermarket mapped as an amenity, without a shop tag. *)
Definition supermarket : Element :=
  mkElement 1 (Some "Market") "supermarket" "" "" "" (Some 13.7) (Some 100.5) None None.

End Categorize.

(** ** Sample points of interest *)

Module Samples.

(** Enough places of every kind to reach every cap. *)
Definition saturated : gmap string (list unit) :=
  <["entertainment" := replicate 2 tt]> (<["healthcare" := replicate 2 tt]>
  (<["transit" := replicate 5 tt]> (<["services" := replicate 5 tt]>
  (<["shopping" := replicate 5 tt]> (<["dining" := replicate 5 tt]> ∅))))).

End Samples.

(** ** Accessibility of a location ([accessibility_analyzer.py]) *)

Module Accessibility.

Import Infrastructure Overpass.

Section Location.

(** What [get_all_pois] returns around a point (within the amenity
    radius); the analysis only counts and scores it. *)
Context {POI : Type} (pois_around : Q -> Q -> gmap string (list POI)).

(** [station.get("location", {}).get(key)] *)
Definition coordinate (key : Location -> option Q) (s : Station) : option Q :=
  l ← location s; key l.

(** [analyze_station_accessibility], as far as the location summary
    reads it: [None] is the ["status": "error"] result of a station
    without coordinates. *)
Definition analyze_station_accessibility (s : Station) : option Convenience :=
  match coordinate latitude s, coordinate longitude s with
  | Some lat, Some lon =>
      if truthy (PNum lat) && truthy (PNum lon)
      then Some (calculate_convenience_score (pois_around lat lon))
      else None
  | _, _ => None
  end.

Definition _calculate_overall_grade (avg_score : Q) : string :=
  if geb avg_score 8.5 then "A"
  else if geb avg_score 7.0 then "B"
  else if geb avg_score 5.0 then "C"
  else if geb avg_score 3.0 then "D"
  else "F".

(** [min(xs)] and [max(xs)] on a non-empty list. *)
Definition py_min_list (x : Q) (xs : list Q) : Q := foldl pymin x xs.
Definition py_max_list (x : Q) (xs : list Q) : Q := foldl pymax x xs.

Definition initial_grades : gmap string nat :=
  <["F" := 0%nat]> (<["D" := 0%nat]> (<["C" := 0%nat]>
  (<["B" := 0%nat]> (<["A" := 0%nat]> ∅)))).

(** [grade = a.get("convenience_grade", "F");
     grade_dist[grade] = grade_dist.get(grade, 0) + 1] *)
Definition count_grade (grade_dist : gmap string nat) (a : option Convenience)
    : gmap string nat :=
  let grade := default "F" (convenience_grade <$> a) in
  <[grade := (default 0%nat (grade_dist !! grade) + 1)%nat]> grade_dist.

(** The summary of [analyze_location_accessibility]; the climate data
    and the lists of top and bottom stations are left out. *)
Record Summary := mkSummary {
  total_stations : nat;
  stations_analyzed : nat;
  avg_convenience_score : Q;
  min_convenience_score : Q;
  max_convenience_score : Q;
  overall_grade : string;
  grade_distribution : gmap string nat
}.

(** [None] is the ["status": "error"] result for an empty station
    list.  [sample_size] is a number of stations: the slice
    [stations[:sample_size]] is taken for a count that is not negative. *)
Definition analyze_location_accessibility (stations : list Station)
    (sample_size : nat) : outcome (option Summary) :=
  match stations with
  | [] => Ok None
  | _ =>
      let sample_stations := take sample_size stations in
      let detailed_analyses := map analyze_station_accessibility sample_stations in
      let scores := omap (fmap total_score) detailed_analyses in
      avg_score ←
        match scores with
        | [] => Ok 0
        | _ => div (py_sum scores) (of_len (length scores))
        end;
      let min_score := match scores with [] => 0 | x :: xs => py_min_list x xs end in
      let max_score := match scores with [] => 0 | x :: xs => py_max_list x xs end in
      let grade_dist := foldl count_grade initial_grades detailed_analyses in
      Ok (Some {|
        total_stations := length stations;
        stations_analyzed := length detailed_analyses;
        avg_convenience_score := round1 avg_score;
        min_convenience_score := round1 min_score;
        max_convenience_score := round1 max_score;
        overall_grade := _calculate_overall_grade avg_score;
        grade_distribution := grade_dist |})
  end.

(** The number of stations a grade distribution accounts for. *)
Definition graded (grade_dist : gmap string nat) : nat :=
  map_fold (fun _ n acc => (acc + n)%nat) 0%nat grade_dist.

End Location.

End Accessibility.

(** * Properties *)

(** ** Facts about the number model *)

Module PyNumFacts.

Lemma geb_le x y : geb x y = true <-> y <= x.
Proof. apply Qle_bool_iff. Qed.

Lemma leb_le x y : leb x y = true <-> x <= y.
Proof. apply Qle_bool_iff. Qed.

Lemma geb_lt x y : geb x y = false <-> x < y.
Proof.
  unfold geb. split; intros H.
  - apply Qnot_le_lt. intros Hle. apply Qle_bool_iff in Hle. congruence.
  - destruct (Qle_bool y x) eqn:E; [|reflexivity].
    apply Qle_bool_iff in E. exfalso. apply (Qlt_not_le _ _ H E).
Qed.

Lemma leb_gt x y : leb x y = false <-> y < x.
Proof. apply geb_lt. Qed.

Lemma ltb_lt x y : ltb x y = true <-> x < y.
Proof.
  unfold ltb. rewrite Bool.negb_true_iff. apply geb_lt.
Qed.

Lemma ltb_ge x y : ltb x y = false <-> y <= x.
Proof.
  unfold ltb. rewrite Bool.negb_false_iff. apply Qle_bool_iff.
Qed.

Lemma gtb_lt x y : gtb x y = true <-> y < x.
Proof. apply ltb_lt. Qed.

Lemma gtb_le x y : gtb x y = false <-> x <= y.
Proof. apply ltb_ge. Qed.

(** Rounding: between the floor and the floor plus one, monotone, and
    the identity on integers. *)

Lemma round_half_even_range x :
  (Qfloor x <= round_half_even x <= Qfloor x + 1)%Z.
Proof.
  unfold round_half_even.
  destruct (ltb _ _); [lia|]. destruct (gtb _ _); [lia|].
  destruct (Z.even _); lia.
Qed.

Lemma round_half_even_mono x y :
  x <= y -> (round_half_even x <= round_half_even y)%Z.
Proof.
  intros Hxy.
  pose proof (Qfloor_resp_le _ _ Hxy) as Hf.
  destruct (Z.eq_dec (Qfloor x) (Qfloor y)) as [E|NE].
  - unfold round_half_even. rewrite E.
    set (f := Qfloor y).
    assert (Hr : x - inject_Z f <= y - inject_Z f) by lra.
    destruct (ltb (x - inject_Z f) (1 # 2)) eqn:E1;
      destruct (ltb (y - inject_Z f) (1 # 2)) eqn:E2;
      destruct (gtb (x - inject_Z f) (1 # 2)) eqn:E3;
      destruct (gtb (y - inject_Z f) (1 # 2)) eqn:E4;
      destruct (Z.even f); try lia;
      rewrite ?ltb_lt, ?ltb_ge, ?gtb_lt, ?gtb_le in *; lra.
  - pose proof (round_half_even_range x). pose proof (round_half_even_range y).
    lia.
Qed.

Lemma round_half_even_inject (n : Z) : round_half_even (inject_Z n) = n.
Proof.
  unfold round_half_even. rewrite Qfloor_Z.
  assert (H : ltb (inject_Z n - inject_Z n) (1 # 2) = true)
    by (apply ltb_lt; lra).
  now rewrite H.
Qed.

#[export] Instance round_half_even_proper : Proper (Qeq ==> eq) round_half_even.
Proof.
  intros x y E. apply Z.le_antisymm; apply round_half_even_mono; lra.
Qed.

Lemma round_half_even_bounds (a b : Z) x :
  inject_Z a <= x <= inject_Z b -> (a <= round_half_even x <= b)%Z.
Proof.
  intros [Ha Hb]. split.
  - rewrite <- (round_half_even_inject a). now apply round_half_even_mono.
  - rewrite <- (round_half_even_inject b). now apply round_half_even_mono.
Qed.

(** Division by a constant, in the form linear arithmetic understands. *)
Lemma div10 x : x / 10 == x * (1 # 10).
Proof. field. Qed.

Lemma div100 x : x / 100 == x * (1 # 100).
Proof. field. Qed.

Lemma round1_mono x y : x <= y -> round1 x <= round1 y.
Proof.
  intros H. unfold round1.
  assert (Hz : (round_half_even (x * 10) <= round_half_even (y * 10))%Z)
    by (apply round_half_even_mono; lra).
  rewrite Zle_Qle in Hz. rewrite !div10. lra.
Qed.

Lemma round1_tenths (n : Z) : round1 (inject_Z n / 10) == inject_Z n / 10.
Proof.
  unfold round1.
  assert (E : inject_Z n / 10 * 10 == inject_Z n) by field.
  now rewrite E, round_half_even_inject.
Qed.

#[export] Instance round1_proper : Proper (Qeq ==> Qeq) round1.
Proof. intros x y E. unfold round1. now rewrite E. Qed.

#[export] Instance round2_proper : Proper (Qeq ==> Qeq) round2.
Proof. intros x y E. unfold round2. now rewrite E. Qed.

(** Rounding to one decimal keeps a value between two bounds that are
    themselves multiples of one tenth. *)
Lemma round1_bounds (a b : Z) x :
  inject_Z a / 10 <= x <= inject_Z b / 10 ->
  inject_Z a / 10 <= round1 x <= inject_Z b / 10.
Proof.
  intros [Ha Hb]. split.
  - rewrite <- (round1_tenths a). now apply round1_mono.
  - rewrite <- (round1_tenths b). now apply round1_mono.
Qed.

Lemma round1_unit_interval x : 0 <= x <= 100 -> 0 <= round1 x <= 100.
Proof.
  intros H. destruct (round1_bounds 0 1000 x) as [H1 H2].
  - rewrite !div10. change (inject_Z 0) with 0. change (inject_Z 1000) with 1000.
    lra.
  - rewrite !div10 in H1, H2.
    change (inject_Z 0) with 0 in H1. change (inject_Z 1000) with 1000 in H2.
    lra.
Qed.

Lemma pymin_spec x y : pymin x y == Qmin x y.
Proof.
  unfold pymin. destruct (ltb y x) eqn:E.
  - apply ltb_lt in E. symmetry. apply Q.min_r. lra.
  - apply ltb_ge in E. symmetry. apply Q.min_l. lra.
Qed.

Lemma pymin_le_l x y : pymin x y <= x.
Proof. rewrite pymin_spec. apply Q.le_min_l. Qed.

Lemma pymin_le_r x y : pymin x y <= y.
Proof. rewrite pymin_spec. apply Q.le_min_r. Qed.

Lemma pymin_glb x y z : z <= x -> z <= y -> z <= pymin x y.
Proof. intros. rewrite pymin_spec. now apply Q.min_glb. Qed.

Lemma pymax_spec x y : pymax x y == Qmax x y.
Proof.
  unfold pymax. destruct (gtb y x) eqn:E.
  - apply gtb_lt in E. symmetry. apply Q.max_r. lra.
  - apply gtb_le in E. symmetry. apply Q.max_l. lra.
Qed.

Lemma pymax_ge_l x y : x <= pymax x y.
Proof. rewrite pymax_spec. apply Q.le_max_l. Qed.

Lemma pymax_ge_r x y : y <= pymax x y.
Proof. rewrite pymax_spec. apply Q.le_max_r. Qed.

Lemma pymax_lub x y z : x <= z -> y <= z -> pymax x y <= z.
Proof. intros. rewrite pymax_spec. now apply Q.max_lub. Qed.


(** Rounding moves a value by at most half a unit. *)
Lemma round_half_even_error x :
  - (1 # 2) <= inject_Z (round_half_even x) - x <= 1 # 2.
Proof.
  pose proof (Qfloor_le x) as Hlo. pose proof (Qlt_floor x) as Hhi.
  rewrite inject_Z_plus in Hhi. change (inject_Z 1) with 1 in Hhi.
  unfold round_half_even.
  destruct (ltb (x - inject_Z (Qfloor x)) (1 # 2)) eqn:E1.
  { apply ltb_lt in E1. lra. }
  apply ltb_ge in E1.
  destruct (gtb (x - inject_Z (Qfloor x)) (1 # 2)) eqn:E2.
  { rewrite inject_Z_plus. change (inject_Z 1) with 1. lra. }
  apply gtb_le in E2.
  destruct (Z.even (Qfloor x)).
  - lra.
  - rewrite inject_Z_plus. change (inject_Z 1) with 1. lra.
Qed.

Lemma round1_error x : - (1 # 20) <= round1 x - x <= 1 # 20.
Proof.
  pose proof (round_half_even_error (x * 10)) as H.
  unfold round1. rewrite div10. lra.
Qed.

(** Bounds that are multiples of one tenth survive the rounding. *)
Lemma round1_le x b (n : Z) :
  b == inject_Z n * (1 # 10) -> x <= b -> round1 x <= b.
Proof.
  intros Hb Hx. rewrite Hb, <- div10, <- (round1_tenths n).
  apply round1_mono. rewrite div10, <- Hb. exact Hx.
Qed.

Lemma round1_ge x b (n : Z) :
  b == inject_Z n * (1 # 10) -> b <= x -> b <= round1 x.
Proof.
  intros Hb Hx. rewrite Hb, <- div10, <- (round1_tenths n).
  apply round1_mono. rewrite div10, <- Hb. exact Hx.
Qed.

Lemma div_ok x y : eqb y 0 = false -> div x y = Ok (x / y).
Proof. intros H. unfold div. now rewrite H. Qed.

Lemma eqb_false x y : eqb x y = false <-> ~ x == y.
Proof.
  unfold eqb. split.
  - intros H E. apply Qeq_bool_iff in E. congruence.
  - intros H. destruct (Qeq_bool x y) eqn:E; [|reflexivity].
    apply Qeq_bool_iff in E. contradiction.
Qed.

Lemma eqb_true x y : eqb x y = true <-> x == y.
Proof. apply Qeq_bool_iff. Qed.

Lemma div_not_zero_division x y : ~ y == 0 -> div x y = Ok (x / y).
Proof. intros H. apply div_ok. now apply eqb_false. Qed.

Lemma div_by_zero x y : y == 0 -> div x y = Raise ZeroDivisionError.
Proof. intros H. unfold div. apply eqb_true in H. now rewrite H. Qed.

End PyNumFacts.

Import PyNumFacts.

(** Case analysis on the comparisons of a piecewise formula, each turned
    into the inequality it decides. *)
Ltac cmp_cases :=
  repeat match goal with
  | |- context [geb ?x ?y] =>
      let E := fresh "E" in
      destruct (geb x y) eqn:E; [apply geb_le in E | apply geb_lt in E]
  | |- context [leb ?x ?y] =>
      let E := fresh "E" in
      destruct (leb x y) eqn:E; [apply leb_le in E | apply leb_gt in E]
  | |- context [ltb ?x ?y] =>
      let E := fresh "E" in
      destruct (ltb x y) eqn:E; [apply ltb_lt in E | apply ltb_ge in E]
  | |- context [gtb ?x ?y] =>
      let E := fresh "E" in
      destruct (gtb x y) eqn:E; [apply gtb_lt in E | apply gtb_le in E]
  end.

(** ** Regional equity scorer *)

Module EquityFacts.
Import Equity.

Section Components.
Variables stations_per_1000 median_income poverty_rate no_vehicle_rate : Q.

Local Abbreviation comps :=
  (equity_components stations_per_1000 median_income poverty_rate no_vehicle_rate).

Lemma lookup_access :
  comps !! "access" = Some (pymin (round1 (access_score stations_per_1000)) 100).
Proof. reflexivity. Qed.

Lemma lookup_affordability :
  comps !! "affordability" = Some (round1 (affordability_score poverty_rate)).
Proof. reflexivity. Qed.

Lemma lookup_mobility :
  comps !! "mobility" = Some (round1 (mobility_score no_vehicle_rate)).
Proof. reflexivity. Qed.

Lemma lookup_income_alignment :
  comps !! "income_alignment"
  = Some (round1 (income_score stations_per_1000 median_income)).
Proof. reflexivity. Qed.

Lemma item_access :
  item comps "access" = pymin (round1 (access_score stations_per_1000)) 100.
Proof. reflexivity. Qed.

Lemma item_affordability :
  item comps "affordability" = round1 (affordability_score poverty_rate).
Proof. reflexivity. Qed.

Lemma item_mobility :
  item comps "mobility" = round1 (mobility_score no_vehicle_rate).
Proof. reflexivity. Qed.

Lemma item_income_alignment :
  item comps "income_alignment"
  = round1 (income_score stations_per_1000 median_income).
Proof. reflexivity. Qed.

Lemma components_of_result :
  components (_calculate_equity_score stations_per_1000 median_income
                poverty_rate no_vehicle_rate) = comps.
Proof.
  unfold _calculate_equity_score. now destruct (equity_grade _).
Qed.

Lemma score_of_result :
  score (_calculate_equity_score stations_per_1000 median_income
           poverty_rate no_vehicle_rate)
  = round1 (weighted_composite EQUITY_WEIGHTS comps).
Proof.
  unfold _calculate_equity_score. now destruct (equity_grade _).
Qed.

(** The composite, with the weights of [config/settings.py] read. *)
Lemma weighted_composite_eq :
  weighted_composite EQUITY_WEIGHTS comps
  == pymin (round1 (access_score stations_per_1000)) 100 * 0.35
     + round1 (affordability_score poverty_rate) * 0.25
     + round1 (mobility_score no_vehicle_rate) * 0.20
     + round1 (income_score stations_per_1000 median_income) * 0.20.
Proof. reflexivity. Qed.

End Components.

(** *** Ranges of the four formulas *)

Lemma access_score_range spk : 0 <= spk -> 0 <= access_score spk <= 100.
Proof. intros H. unfold access_score. cmp_cases; lra. Qed.

Lemma affordability_score_range p : 0 <= p <= 100 -> 0 <= affordability_score p <= 100.
Proof.
  intros H. unfold affordability_score. cmp_cases; try lra.
  split; [apply pymax_ge_r | apply pymax_lub; lra].
Qed.

Lemma mobility_score_range v : 20 <= mobility_score v <= 90.
Proof.
  unfold mobility_score. cmp_cases; try lra.
  split; [apply pymax_ge_r | apply pymax_lub; lra].
Qed.

Lemma income_score_range spk income :
  0 <= spk -> 0 <= income_score spk income <= 100.1.
Proof.
  intros H. pose proof (access_score_range spk H) as Ha.
  unfold income_score.
  set (r := income / national_median).
  cmp_cases; try lra.
  split; [apply pymin_glb; lra | ].
  pose proof (pymin_le_r (access_score spk * 1.1) 100). lra.
Qed.


(** *** Ranges of the stored components *)

Lemma access_component_range spk :
  0 <= spk -> 0 <= pymin (round1 (access_score spk)) 100 <= 100.
Proof.
  intros H. pose proof (access_score_range spk H) as Ha. split.
  - apply pymin_glb; [|lra]. apply (round1_ge _ 0 0); [reflexivity | lra].
  - apply pymin_le_r.
Qed.

Lemma affordability_component_range p :
  0 <= p <= 100 -> 0 <= round1 (affordability_score p) <= 100.
Proof. intros H. apply round1_unit_interval. now apply affordability_score_range. Qed.

Lemma mobility_component_range v : 20 <= round1 (mobility_score v) <= 90.
Proof.
  pose proof (mobility_score_range v) as H. split.
  - apply (round1_ge _ 20 200); [reflexivity | lra].
  - apply (round1_le _ 90 900); [reflexivity | lra].
Qed.

Lemma income_component_range spk income :
  0 <= spk -> 0 <= round1 (income_score spk income) <= 100.1.
Proof.
  intros H. pose proof (income_score_range spk income H) as Hi. split.
  - apply (round1_ge _ 0 0); [reflexivity | lra].
  - apply (round1_le _ 100.1 1001); [reflexivity | lra].
Qed.

(** C3.  For stations_per_1000 >= 0, median_income >= 0 and both rates in
    [0,100], the composite of [_calculate_equity_score], before and after
    its rounding to one decimal (the returned [score]), lies in [0,100]. *)
Theorem composite_score_in_range spk income p v :
  0 <= spk -> 0 <= income -> 0 <= p <= 100 -> 0 <= v <= 100 ->
  0 <= weighted_composite EQUITY_WEIGHTS (equity_components spk income p v) <= 100
  /\ 0 <= score (_calculate_equity_score spk income p v) <= 100.
Proof.
  intros Hs Hi Hp Hv.
  assert (Hc : 0 <= weighted_composite EQUITY_WEIGHTS (equity_components spk income p v)
               <= 100).
  { rewrite weighted_composite_eq.
    pose proof (access_component_range spk Hs).
    pose proof (affordability_component_range p Hp).
    pose proof (mobility_component_range v).
    pose proof (income_component_range spk income Hs).
    lra. }
  split; [exact Hc|].
  rewrite score_of_result. now apply round1_unit_interval.
Qed.

Lemma composite_score_in_range_witness :
  0 <= score (_calculate_equity_score 0.3 60000 12 8) <= 100.
Proof.
  apply (composite_score_in_range 0.3 60000 12 8); lra.
Defined.

(** C2.  The income-alignment component is not confined to [0,100]: the
    middle-income branch [70 + (income_ratio - 0.8) * 43] is stored
    without the [min(_, 100)] of the high-income branch, and for
    median_income = 112450 (income_ratio just below 1.5) the stored
    value is 100.1. *)
Theorem income_alignment_exceeds_100 :
  let r := _calculate_equity_score 0 112450 0 0 in
  geb (112450 / national_median) 1.5 = false
  /\ geb (112450 / national_median) 0.8 = true
  /\ components r !! "income_alignment"
     = Some (round1 (70 + (112450 / national_median - 0.8) * 43))
  /\ item (components r) "income_alignment" == 100.1
  /\ ~ item (components r) "income_alignment" <= 100.
Proof.
  repeat split; try reflexivity.
  vm_compute. intros H. now apply H.
Qed.

(** The other three components do stay in [0,100], and so does the
    income alignment outside the middle-income branch. *)
Lemma other_components_in_range spk income p v :
  0 <= spk -> 0 <= p <= 100 ->
  let c := components (_calculate_equity_score spk income p v) in
  0 <= item c "access" <= 100
  /\ 0 <= item c "affordability" <= 100
  /\ 0 <= item c "mobility" <= 100
  /\ 0 <= item c "income_alignment" <= 100.1.
Proof.
  intros Hs Hp c. subst c. rewrite components_of_result.
  rewrite item_access, item_affordability, item_mobility, item_income_alignment.
  pose proof (access_component_range spk Hs).
  pose proof (affordability_component_range p Hp).
  pose proof (mobility_component_range v).
  pose proof (income_component_range spk income Hs).
  repeat split; lra.
Qed.

(** *** Affordability *)

Lemma affordability_score_saturates p : p <= 5 -> affordability_score p == 100.
Proof.
  intros H. unfold affordability_score.
  destruct (leb p 5) eqn:E; [reflexivity|]. apply leb_gt in E. lra.
Qed.

Lemma affordability_score_antitone p1 p2 :
  p1 <= p2 -> affordability_score p2 <= affordability_score p1.
Proof.
  intros H. unfold affordability_score, pymax. cmp_cases; lra.
Qed.

(** C5.  The stored Affordability component is 100 for a poverty rate in
    [0,5] and never increases with the poverty rate over [0,100]. *)
Theorem affordability_saturates_and_never_increases spk income v p1 p2 :
  0 <= p1 -> p1 <= p2 -> p2 <= 100 ->
  let aff p := item (components (_calculate_equity_score spk income p v))
                 "affordability" in
  (p1 <= 5 -> aff p1 == 100) /\ aff p2 <= aff p1.
Proof.
  intros H0 H12 H100 aff. subst aff. cbn beta.
  rewrite !components_of_result, !item_affordability. split.
  - intros H5. rewrite (affordability_score_saturates p1 H5). reflexivity.
  - apply round1_mono. now apply affordability_score_antitone.
Qed.

Lemma affordability_saturates_and_never_increases_witness :
  item (components (_calculate_equity_score 0.3 60000 3 8)) "affordability" == 100
  /\ item (components (_calculate_equity_score 0.3 60000 12 8)) "affordability"
     <= item (components (_calculate_equity_score 0.3 60000 3 8)) "affordability".
Proof.
  assert (H0 : 0 <= 3) by lra.
  assert (H12 : 3 <= 12) by lra.
  assert (H100 : 12 <= 100) by lra.
  destruct (affordability_saturates_and_never_increases 0.3 60000 8 3 12 H0 H12 H100)
    as [H1 H2].
  split; [apply H1; lra | exact H2].
Defined.

(** *** Scenario A *)

(** C4, as the code computes it.  population=851036 and 50 stations give
    stations_per_1000 = 12500/212759 (about 0.05875); Access is 17.6 by
    the below-0.1 branch; the poverty rate 10.48 is above 10, so
    Affordability comes from the (10,20] branch, 60-(10.48-10)*3 = 58.56,
    stored as 58.6; the composite 42.69 is in [0,100], the score is 42.7
    and the grade is D / Poor. *)
Theorem scenario_A_values :
  (exists spk, stations_per_1000 50 851036 = Ok spk /\ spk == scenario_A_density)
  /\ 0.0587 < scenario_A_density < 0.0588
  /\ geb scenario_A_density 0.1 = false
  /\ access_score scenario_A_density == scenario_A_density * 300
  /\ item (components scenario_A) "access" == 17.6
  /\ leb 10.48 10 = false /\ leb 10.48 20 = true
  /\ affordability_score 10.48 == 60 - (10.48 - 10) * 3
  /\ affordability_score 10.48 == 58.56
  /\ item (components scenario_A) "affordability" == 58.6
  /\ weighted_composite EQUITY_WEIGHTS (components scenario_A) == 42.69
  /\ 0 <= score scenario_A <= 100
  /\ score scenario_A == 42.7
  /\ grade scenario_A = "D" /\ rating scenario_A = "Poor".
Proof.
  split; [eexists; split; [reflexivity | reflexivity] |].
  repeat split; try reflexivity; vm_compute; discriminate.
Qed.

(** C4, as stated: the Affordability of scenario A is not 58.08, and
    10.48 is not in the (5,10] branch. *)
Lemma scenario_A_affordability_is_not_58_08 :
  leb 10.48 10 = false
  /\ ~ item (components scenario_A) "affordability" == 58.08.
Proof. split; [reflexivity | vm_compute; discriminate]. Qed.

(** *** Recomputing the composite from the components *)

(** C6, as stated, fails on scenario A: the weighted sum of the returned
    components is 42.69 and the returned score is 42.7. *)
Lemma scenario_A_weighted_sum_is_not_the_score :
  ~ weighted_composite EQUITY_WEIGHTS (components scenario_A) == score scenario_A.
Proof. vm_compute. discriminate. Qed.

(** C6, amended.  The returned score is a number with one decimal that
    lies within 0.05 of the weighted sum (0.35/0.25/0.20/0.20) of the
    returned components; it reproduces that sum exactly when the sum has
    one decimal itself.  The bound holds for either neighbour of a sum that
    lies half-way between two tenths, so it does not depend on how such a
    tie is rounded. *)
Theorem score_within_rounding_of_weighted_sum spk income p v :
  let r := _calculate_equity_score spk income p v in
  let recomputed :=
    item (components r) "access" * 0.35 + item (components r) "affordability" * 0.25
    + item (components r) "mobility" * 0.20
    + item (components r) "income_alignment" * 0.20 in
  - 0.05 <= score r - recomputed <= 0.05
  /\ (exists k : Z, score r == inject_Z k / 10)
  /\ ((exists k : Z, recomputed == inject_Z k / 10) -> score r == recomputed).
Proof.
  cbn zeta. rewrite components_of_result, score_of_result.
  set (c := equity_components spk income p v).
  assert (E : weighted_composite EQUITY_WEIGHTS c
              == item c "access" * 0.35 + item c "affordability" * 0.25
                 + item c "mobility" * 0.20 + item c "income_alignment" * 0.20)
    by reflexivity.
  rewrite E.
  set (s := item c "access" * 0.35 + item c "affordability" * 0.25
            + item c "mobility" * 0.20 + item c "income_alignment" * 0.20).
  split; [|split].
  - pose proof (round1_error s). lra.
  - exists (round_half_even (s * 10)). reflexivity.
  - intros [k Hk]. rewrite Hk. apply round1_tenths.
Qed.

End EquityFacts.

(** ** Global equity scorer *)

Module GlobalEquityFacts.
Import GlobalEquity.

Lemma get_insert_ne (d : gmap string pyval) k k' v dv :
  k <> k' -> get (<[k := v]> d) k' dv = get d k' dv.
Proof. intros H. unfold get. now rewrite lookup_insert_ne. Qed.

Lemma get_insert_eq (d : gmap string pyval) k v dv :
  get (<[k := v]> d) k dv = v.
Proof. unfold get. now rewrite lookup_insert_eq. Qed.

(** [demographics.get("poverty_rate") or 0] when the rate is absent,
    [None] or 0. *)
Lemma poverty_missing_is_zero (d : gmap string pyval) :
  d !! "poverty_rate" = None \/ d !! "poverty_rate" = Some PNone ->
  py_or (get_none d "poverty_rate") (PNum 0) = PNum 0.
Proof. unfold get_none, get. intros [-> | ->]; reflexivity. Qed.

Lemma poverty_zero_is_zero (d : gmap string pyval) :
  py_or (get_none (<["poverty_rate" := PNum 0]> d) "poverty_rate") (PNum 0) = PNum 0.
Proof. unfold get_none. now rewrite get_insert_eq. Qed.

Lemma infrastructure_readiness_insert_poverty d v cc :
  infrastructure_readiness (<["poverty_rate" := v]> d) cc
  = infrastructure_readiness d cc.
Proof.
  unfold infrastructure_readiness. now rewrite !get_insert_ne by done.
Qed.

(** C10.  When [poverty_rate] is absent from the demographics or is
    [None], the global scorer behaves exactly as for a poverty rate of 0,
    and every result it returns has Affordability 100. *)
Theorem missing_poverty_is_zero_poverty
    (n : nat) (d : gmap string pyval) (r : Q) (cc : string) :
  d !! "poverty_rate" = None \/ d !! "poverty_rate" = Some PNone ->
  _calculate_global_equity_score n d r cc
  = _calculate_global_equity_score n (<["poverty_rate" := PNum 0]> d) r cc
  /\ forall res, _calculate_global_equity_score n d r cc = Ok res ->
                 components res !! "affordability" = Some 100.
Proof.
  intros Hmiss. unfold _calculate_global_equity_score.
  rewrite poverty_zero_is_zero, (poverty_missing_is_zero d Hmiss),
    infrastructure_readiness_insert_poverty, !get_insert_ne by done.
  split; [reflexivity|].
  intros res.
  destruct (as_str _) as [level|]; [|discriminate]. cbn [mbind outcome_bind].
  destruct (access_component _ _ _) as [access|]; [|discriminate].
  cbn [mbind outcome_bind].
  destruct (as_num (get d "income_per_capita" _)) as [income|]; [|discriminate].
  cbn [mbind outcome_bind as_num].
  destruct (infrastructure_readiness _ _) as [ready|]; [|discriminate].
  cbn [mbind outcome_bind].
  destruct (global_grade _) as [g rt]. intros [= <-]. reflexivity.
Qed.

Lemma missing_poverty_is_zero_poverty_witness :
  exists res, _calculate_global_equity_score 50 thailand 10 "THA" = Ok res
              /\ components res !! "affordability" = Some 100.
Proof.
  assert (H : thailand !! "poverty_rate" = None
              \/ thailand !! "poverty_rate" = Some PNone) by (right; reflexivity).
  destruct (missing_poverty_is_zero_poverty 50 thailand 10 "THA" H) as [_ Haff].
  destruct (_calculate_global_equity_score 50 thailand 10 "THA") as [res|e] eqn:E.
  - exists res. split; [reflexivity | now apply Haff].
  - vm_compute in E. discriminate.
Defined.

End GlobalEquityFacts.

(** ** Coverage and distribution *)

Module InfrastructureFacts.
Import Infrastructure.

Lemma div4 x : x / 4 == x * (1 # 4).
Proof. field. Qed.

Lemma sq x : x ^ 2 == x * x.
Proof. reflexivity. Qed.

Lemma total_of_quadrants q :
  of_int (foldl Z.add 0%Z (quadrant_values q))
  == of_int (NE q) + of_int (NW q) + of_int (SE q) + of_int (SW q).
Proof.
  unfold of_int, quadrant_values. cbn [foldl].
  rewrite !inject_Z_plus. change (inject_Z 0) with 0. ring.
Qed.

Lemma evenness_eq q :
  let a := of_int (NE q) in let b := of_int (NW q) in
  let c := of_int (SE q) in let d := of_int (SW q) in
  exists v m, v == variance_of a b c d /\ m == max_variance_of a b c d
    /\ evenness q = if eqb m 0 then Ok 1.0 else r ← div v m; Ok (1 - r).
Proof.
  cbn zeta. unfold evenness.
  set (t := of_int (foldl Z.add 0%Z (quadrant_values q))).
  assert (Ht : t == of_int (NE q) + of_int (NW q) + of_int (SE q) + of_int (SW q))
    by apply total_of_quadrants.
  eexists _, _. split; [|split]; [| |reflexivity].
  - unfold variance_of, py_sum. cbn [quadrant_values map foldl].
    rewrite !sq, Ht. field.
  - unfold max_variance_of. rewrite !sq, Ht. reflexivity.
Qed.

Lemma of_int_nonzero n : n <> 0%Z -> ~ of_int n == 0.
Proof.
  intros H E. apply H. unfold of_int, Qeq in E. cbn in E. lia.
Qed.

(** Equal counts: the score is 1. *)
Lemma evenness_equal_counts k :
  exists s, evenness (mkQuadrants k k k k) = Ok s /\ s == 1.
Proof.
  destruct (evenness_eq (mkQuadrants k k k k)) as (v & m & Hv & Hm & ->).
  cbn [NE NW SE SW] in Hv, Hm.
  assert (Hv0 : v == 0) by (rewrite Hv; unfold variance_of; field).
  destruct (eqb m 0) eqn:E.
  - exists 1.0. split; reflexivity.
  - rewrite (div_ok _ _ E). cbn [mbind outcome_bind].
    exists (1 - v / m). split; [reflexivity|].
    rewrite Hv0. apply eqb_false in E. field. exact E.
Qed.

(** All stations in one quadrant: the score is 2/3, not 0.  The
    variance is divided by 4, its bound [max_variance] is not. *)
Lemma evenness_single_quadrant n :
  n <> 0%Z -> exists s, evenness (mkQuadrants n 0 0 0) = Ok s /\ s == 2 # 3.
Proof.
  intros Hn. apply of_int_nonzero in Hn.
  destruct (evenness_eq (mkQuadrants n 0 0 0)) as (v & m & Hv & Hm & ->).
  cbn [NE NW SE SW] in Hv, Hm. change (of_int 0) with 0 in Hv, Hm.
  set (x := of_int n) in *.
  assert (Hv' : v == (3 # 16) * (x * x)) by (rewrite Hv; unfold variance_of; field).
  assert (Hm' : m == (9 # 16) * (x * x)) by (rewrite Hm; unfold max_variance_of; field).
  assert (Hx2 : ~ x * x == 0).
  { intros E. apply Qmult_integral in E. tauto. }
  assert (Hm0 : ~ m == 0) by (rewrite Hm'; intros E; apply Hx2; lra).
  apply eqb_false in Hm0. rewrite Hm0, (div_ok _ _ Hm0). cbn [mbind outcome_bind].
  exists (1 - v / m). split; [reflexivity|].
  rewrite Hv', Hm'. field. exact Hn.
Qed.

Lemma sq_nonneg x : 0 <= x * x.
Proof.
  destruct (Qlt_le_dec x 0) as [H|H].
  - assert (E : x * x == (- x) * (- x)) by ring.
    rewrite E. apply Qmult_le_0_compat; lra.
  - now apply Qmult_le_0_compat.
Qed.

(** With non-negative counts the score never falls below 2/3, so the
    ratings below 0.6 cannot be reached. *)
Lemma variance_bound a b c d :
  0 <= a -> 0 <= b -> 0 <= c -> 0 <= d ->
  0 <= variance_of a b c d /\ 3 * variance_of a b c d <= max_variance_of a b c d.
Proof.
  intros Ha Hb Hc Hd. unfold variance_of, max_variance_of.
  set (e := (a + b + c + d) / 4).
  split.
  - pose proof (sq_nonneg (a - e)). pose proof (sq_nonneg (b - e)).
    pose proof (sq_nonneg (c - e)). pose proof (sq_nonneg (d - e)).
    rewrite div4. lra.
  - subst e.
    assert (E : (a + b + c + d - (a + b + c + d) / 4) * (a + b + c + d - (a + b + c + d) / 4)
                - 3 * (((a - (a + b + c + d) / 4) * (a - (a + b + c + d) / 4) +
                 (b - (a + b + c + d) / 4) * (b - (a + b + c + d) / 4) +
                 (c - (a + b + c + d) / 4) * (c - (a + b + c + d) / 4) +
                 (d - (a + b + c + d) / 4) * (d - (a + b + c + d) / 4)) / 4)
                == (3 # 2) * (a * b + a * c + a * d + b * c + b * d + c * d))
      by field.
    assert (0 <= a * b /\ 0 <= a * c /\ 0 <= a * d /\ 0 <= b * c /\ 0 <= b * d /\ 0 <= c * d)
      by (repeat split; apply Qmult_le_0_compat; assumption).
    lra.
Qed.

Lemma count_station_nonneg clat clon q s :
  (0 <= NE q /\ 0 <= NW q /\ 0 <= SE q /\ 0 <= SW q)%Z ->
  let q' := count_station clat clon q s in
  (0 <= NE q' /\ 0 <= NW q' /\ 0 <= SE q' /\ 0 <= SW q')%Z.
Proof.
  intros H. unfold count_station.
  destruct (location s) as [[[lat|] [lon|]]|]; cbn [latitude longitude]; try exact H.
  destruct (truthy (PNum lat) && truthy (PNum lon)); [|exact H].
  destruct (geb lat clat), (geb lon clon); cbn [NE NW SE SW]; lia.
Qed.

Lemma count_quadrants_nonneg clat clon stations :
  let q := count_quadrants clat clon stations in
  (0 <= NE q /\ 0 <= NW q /\ 0 <= SE q /\ 0 <= SW q)%Z.
Proof.
  unfold count_quadrants.
  assert (H : (0 <= NE (mkQuadrants 0 0 0 0) /\ 0 <= NW (mkQuadrants 0 0 0 0)
               /\ 0 <= SE (mkQuadrants 0 0 0 0) /\ 0 <= SW (mkQuadrants 0 0 0 0))%Z)
    by (cbn; lia).
  revert H. generalize (mkQuadrants 0 0 0 0).
  induction stations as [|s stations IH]; intros q H; cbn [foldl]; [exact H|].
  apply IH. now apply count_station_nonneg.
Qed.

Lemma of_int_nonneg n : (0 <= n)%Z -> 0 <= of_int n.
Proof. intros H. unfold of_int. rewrite Zle_Qle in H. exact H. Qed.

(** [evenness] always returns, and with non-negative counts its value is
    between 2/3 and 1. *)
Lemma evenness_returns q : returns (evenness q).
Proof.
  destruct (evenness_eq q) as (v & m & _ & _ & ->).
  destruct (eqb m 0) eqn:E; [now eexists|].
  rewrite (div_ok _ _ E). now eexists.
Qed.

Lemma evenness_range q s :
  (0 <= NE q /\ 0 <= NW q /\ 0 <= SE q /\ 0 <= SW q)%Z ->
  evenness q = Ok s -> 2 # 3 <= s <= 1.
Proof.
  intros (Ha & Hb & Hc & Hd).
  apply of_int_nonneg in Ha, Hb, Hc, Hd.
  destruct (evenness_eq q) as (v & m & Hv & Hm & ->).
  destruct (variance_bound _ _ _ _ Ha Hb Hc Hd) as [Hv0 Hvm].
  rewrite <- Hv in Hv0, Hvm. rewrite <- Hm in Hvm.
  destruct (eqb m 0) eqn:E.
  - intros [= <-]. split; [vm_compute; discriminate | vm_compute; discriminate].
  - rewrite (div_ok _ _ E). cbn [mbind outcome_bind]. intros [= <-].
    apply eqb_false in E.
    assert (Hm0 : 0 < m) by (destruct (Qlt_le_dec 0 m); [assumption | exfalso; apply E; lra]).
    assert (H1 : v / m <= 1 # 3) by (apply Qle_shift_div_r; [exact Hm0 | lra]).
    assert (H2 : 0 <= v / m) by (apply Qle_shift_div_l; [exact Hm0 | lra]).
    lra.
Qed.

(** *** The whole calculation *)

(** C9.  Fewer than 4 stations: the fixed neutral result, no exception. *)
Theorem fewer_than_four_is_insufficient (stations : list Station) :
  (length stations < 4)%nat ->
  _calculate_distribution stations
  = Ok (mkDistribution 0.5 "Insufficient data" None).
Proof.
  intros H. unfold _calculate_distribution.
  apply Nat.ltb_lt in H. now rewrite H.
Qed.

Lemma fewer_than_four_is_insufficient_witness :
  _calculate_distribution [station_at 11 21; station_at 9 19]
  = Ok (mkDistribution 0.5 "Insufficient data" None).
Proof.
  apply (fewer_than_four_is_insufficient [station_at 11 21; station_at 9 19]).
  cbn. lia.
Defined.

(** A result that carries quadrant counts was scored by [evenness]. *)
Lemma distribution_inv stations d q :
  _calculate_distribution stations = Ok d ->
  dist_quadrants d = Some q ->
  exists center_lat center_lon s,
    q = count_quadrants center_lat center_lon stations
    /\ evenness q = Ok s
    /\ dist_score d = round2 s
    /\ dist_rating d = distribution_rating s.
Proof.
  unfold _calculate_distribution.
  destruct (length stations <? 4)%nat; [intros [= <-]; discriminate|].
  destruct (coordinates latitude stations) as [|lat lats];
    [intros [= <-]; discriminate|].
  destruct (coordinates longitude stations) as [|lon lons];
    [intros [= <-]; discriminate|].
  destruct (sum_coordinates (lat :: lats)) as [sum_lats|]; [|discriminate].
  cbn [mbind outcome_bind].
  destruct (div sum_lats _) as [center_lat|]; [|discriminate].
  cbn [mbind outcome_bind].
  destruct (sum_coordinates (lon :: lons)) as [sum_lons|]; [|discriminate].
  cbn [mbind outcome_bind].
  destruct (div sum_lons _) as [center_lon|]; [|discriminate].
  cbn [mbind outcome_bind].
  destruct (evenness _) as [s|] eqn:Es; [|discriminate].
  cbn [mbind outcome_bind].
  intros [= <-]. cbn [dist_quadrants dist_score dist_rating]. intros [= <-].
  now exists center_lat, center_lon, s.
Qed.

(** Whatever the stations, a scored distribution is rated Even or
    Moderate: the ratings below 0.6 are out of reach. *)
Lemma scored_distribution_at_least_two_thirds stations d q :
  _calculate_distribution stations = Ok d ->
  dist_quadrants d = Some q ->
  0.67 <= dist_score d <= 1
  /\ (dist_rating d = "Even" \/ dist_rating d = "Moderate").
Proof.
  intros Hd Hq.
  destruct (distribution_inv _ _ _ Hd Hq) as (clat & clon & s & -> & Hs & -> & ->).
  pose proof (evenness_range _ _ (count_quadrants_nonneg clat clon stations) Hs) as [Hlo Hhi].
  split.
  - split.
    + assert (Hz : (round_half_even ((2 # 3) * 100) <= round_half_even (s * 100))%Z)
        by (apply round_half_even_mono; lra).
      assert (E : inject_Z (round_half_even ((2 # 3) * 100)) == 67) by reflexivity.
      rewrite Zle_Qle in Hz. unfold round2. rewrite div100. lra.
    + assert (Hz : (round_half_even (s * 100) <= round_half_even (1 * 100))%Z)
        by (apply round_half_even_mono; lra).
      assert (E : inject_Z (round_half_even (1 * 100)) == 100) by reflexivity.
      rewrite Zle_Qle in Hz. unfold round2. rewrite div100. lra.
  - unfold distribution_rating.
    destruct (geb s 0.8); [now left|].
    assert (H2 : geb s 0.6 = true) by (apply geb_le; lra). rewrite H2. now right.
Qed.

(** The half of C1 that holds: equal quadrant counts give the score 1.0
    and the rating Even. *)
Lemma equal_quadrants_score_one stations d k :
  _calculate_distribution stations = Ok d ->
  dist_quadrants d = Some (mkQuadrants k k k k) ->
  dist_score d == 1 /\ dist_rating d = "Even".
Proof.
  intros Hd Hq.
  destruct (distribution_inv _ _ _ Hd Hq) as (clat & clon & s & _ & Hs & -> & ->).
  destruct (evenness_equal_counts k) as (s' & Hs' & E).
  rewrite Hs in Hs'. injection Hs' as <-.
  split.
  - rewrite E. reflexivity.
  - unfold distribution_rating.
    assert (H : geb s 0.8 = true) by (apply geb_le; lra). now rewrite H.
Qed.

(** The half of C1 that fails: all counted stations in one quadrant give
    the score 0.67 and the rating Moderate. *)
Lemma single_quadrant_score stations d n :
  n <> 0%Z ->
  _calculate_distribution stations = Ok d ->
  dist_quadrants d = Some (mkQuadrants n 0 0 0) ->
  dist_score d == 0.67 /\ dist_rating d = "Moderate".
Proof.
  intros Hn Hd Hq.
  destruct (distribution_inv _ _ _ Hd Hq) as (clat & clon & s & _ & Hs & -> & ->).
  destruct (evenness_single_quadrant n Hn) as (s' & Hs' & E).
  rewrite Hs in Hs'. injection Hs' as <-.
  split.
  - rewrite E. reflexivity.
  - unfold distribution_rating.
    assert (H1 : geb s 0.8 = false) by (apply geb_lt; lra).
    assert (H2 : geb s 0.6 = true) by (apply geb_le; lra).
    now rewrite H1, H2.
Qed.

(** C1 on the code: four stations at one and the same place all fall in
    the NE quadrant of their centroid; the score is 0.67, not 0.0, and the
    rating is Moderate. *)
Theorem colocated_stations_score :
  exists d, _calculate_distribution colocated = Ok d
    /\ dist_quadrants d = Some (mkQuadrants 4 0 0 0)
    /\ dist_score d == 0.67
    /\ ~ dist_score d == 0
    /\ dist_rating d = "Moderate".
Proof.
  eexists. split; [vm_compute; reflexivity|].
  cbn [dist_quadrants dist_score dist_rating].
  repeat split. vm_compute. discriminate.
Qed.

(** Scenario B: one station in each quadrant scores 1.0, Even. *)
Example scenario_B_score :
  exists d, _calculate_distribution scenario_B = Ok d
    /\ dist_quadrants d = Some (mkQuadrants 1 1 1 1)
    /\ dist_score d == 1 /\ dist_rating d = "Even".
Proof.
  eexists. split; [vm_compute; reflexivity|].
  cbn [dist_quadrants dist_score dist_rating]. repeat split.
Qed.

End InfrastructureFacts.

(** ** Division by zero *)

Module DivisionFacts.
Import Equity GlobalEquity Infrastructure Census InfrastructureFacts.

Lemma bind_safe {A B} (m : outcome A) (f : A -> outcome B) :
  m <> Raise ZeroDivisionError ->
  (forall a, m = Ok a -> f a <> Raise ZeroDivisionError) ->
  (m ≫= f) <> Raise ZeroDivisionError.
Proof.
  intros Hm Hf. destruct m as [a|e]; cbn [mbind outcome_bind].
  - now apply Hf.
  - intros [= ->]. now apply Hm.
Qed.

Lemma as_num_safe v : as_num v <> Raise ZeroDivisionError.
Proof. now destruct v. Qed.

Lemma as_str_safe v : as_str v <> Raise ZeroDivisionError.
Proof. now destruct v. Qed.

Lemma div_safe x y : ~ y == 0 -> div x y <> Raise ZeroDivisionError.
Proof. intros H. now rewrite (div_not_zero_division _ _ H). Qed.

Lemma of_len_positive n : ~ of_len (S n) == 0.
Proof. unfold of_len, Qeq. cbn -[Z.of_nat]. lia. Qed.

(** The area of the search disk vanishes only at radius 0. *)
Lemma area_nonzero (k r : Q) : ~ k == 0 -> ~ r == 0 -> ~ k * r ^ 2 == 0.
Proof.
  intros Hk Hr E. rewrite sq in E.
  apply Qmult_integral in E as [E|E]; [tauto|].
  apply Qmult_integral in E. tauto.
Qed.

(** *** Population and Census denominators: guarded *)


Lemma stations_per_1000_no_population n p :
  (p <= 0)%Z -> stations_per_1000 n p = Ok 0.
Proof.
  intros H. unfold stations_per_1000.
  destruct (p >? 0)%Z eqn:E; [lia | reflexivity].
Qed.


Lemma guarded_rate_no_denominator county num den :
  county !! den = None \/ county !! den = Some (PNum 0) ->
  guarded_rate county num den = Ok (round2 0).
Proof.
  unfold guarded_rate, get_none, get. intros [-> | ->]; reflexivity.
Qed.

(** *** Area denominators: unguarded *)

(** The area of the search disk is the only denominator that is not
    tested: where it is not 0 the two scorers raise no division error. *)
Lemma global_score_safe n d r cc :
  ~ 3.14159 * r ^ 2 == 0 ->
  _calculate_global_equity_score n d r cc <> Raise ZeroDivisionError.
Proof.
  intros Ha. unfold _calculate_global_equity_score.
  apply bind_safe; [apply as_str_safe|]. intros level _.
  apply bind_safe.
  { unfold access_component. apply bind_safe; [|discriminate].
    now apply div_safe. }
  intros access _.
  apply bind_safe; [apply as_num_safe|]. intros income _.
  apply bind_safe; [apply as_num_safe|]. intros poverty _.
  apply bind_safe.
  { unfold infrastructure_readiness. destruct (negb _); [|discriminate].
    apply bind_safe; [apply as_num_safe|]. intros ev _.
    apply bind_safe; [apply as_num_safe | discriminate]. }
  intros ready _. destruct (global_grade _). discriminate.
Qed.

Lemma distribution_safe stations :
  _calculate_distribution stations <> Raise ZeroDivisionError.
Proof.
  unfold _calculate_distribution.
  destruct (length stations <? 4)%nat; [discriminate|].
  destruct (coordinates latitude stations) as [|lat lats]; [discriminate|].
  destruct (coordinates longitude stations) as [|lon lons]; [discriminate|].
  assert (Hsum : forall xs, sum_coordinates xs <> Raise ZeroDivisionError).
  { intros xs. unfold sum_coordinates.
    assert (H : forall acc, acc <> Raise ZeroDivisionError ->
              foldl (fun acc x => a ← acc;
                       match x with Some q => Ok (a + q) | None => Raise TypeError end)
                    acc xs <> Raise ZeroDivisionError).
    { induction xs as [|x xs IH]; intros acc Hacc; cbn [foldl]; [exact Hacc|].
      apply IH. apply bind_safe; [exact Hacc|]. intros a _. now destruct x. }
    now apply H. }
  apply bind_safe; [apply Hsum|]. intros sum_lats _.
  apply bind_safe; [apply div_safe, of_len_positive|]. intros center_lat _.
  apply bind_safe; [apply Hsum|]. intros sum_lons _.
  apply bind_safe; [apply div_safe, of_len_positive|]. intros center_lon _.
  apply bind_safe; [|discriminate].
  destruct (evenness_returns (count_quadrants center_lat center_lon stations)) as [s ->].
  discriminate.
Qed.

Lemma coverage_safe stations r :
  ~ math_pi * r ^ 2 == 0 ->
  _analyze_coverage stations r <> Raise ZeroDivisionError.
Proof.
  intros Ha. unfold _analyze_coverage. destruct stations as [|s stations]; [discriminate|].
  apply bind_safe; [now apply div_safe|]. intros density _.
  apply bind_safe; [now apply div_safe|]. intros connector_density _.
  apply bind_safe; [apply distribution_safe|]. intros distribution _.
  destruct (coverage_rating_of _). discriminate.
Qed.

(** At radius 0 the global scorer raises for every station count, once
    the income level is a string; the coverage analysis raises for every
    station list that is not empty. *)
Lemma global_score_raises_at_radius_0 n d cc :
  returns (as_str (get d "income_level" (PStr "Middle Income"))) ->
  _calculate_global_equity_score n d 0 cc = Raise ZeroDivisionError.
Proof.
  intros [lvl E]. unfold _calculate_global_equity_score. rewrite E. reflexivity.
Qed.

Lemma coverage_raises_at_radius_0 stations :
  stations <> [] -> _analyze_coverage stations 0 = Raise ZeroDivisionError.
Proof. intros H. destruct stations; [congruence | reflexivity]. Qed.

(** C7.  At radius 0 the area of the search disk is 0 and both density
    computations raise [ZeroDivisionError]: the global access density
    (here without any station and on a World Bank profile) and the coverage
    density.  The other denominators are tested first: without
    population the stations per 1000 people are 0, and a poverty universe
    of 0 gives a poverty rate of 0. *)
Theorem zero_radius_raises :
  _calculate_global_equity_score 0 thailand 0 "THA" = Raise ZeroDivisionError
  /\ _analyze_coverage colocated 0 = Raise ZeroDivisionError
  /\ (forall n, stations_per_1000 n 0 = Ok 0)
  /\ (forall county, county !! "poverty_universe" = Some (PNum 0) ->
        exists q, poverty_rate county = Ok q /\ q == 0).
Proof.
  split; [reflexivity|]. split; [reflexivity|]. split.
  - intros n. now apply stations_per_1000_no_population.
  - intros county H. exists (round2 0). split; [|reflexivity].
    apply guarded_rate_no_denominator. now right.
Qed.

End DivisionFacts.

(** ** Convenience score *)

Module OverpassFacts.
Import Overpass.

(** A capped multiple of tenths is a whole number of tenths. *)
Lemma capped_tenths (c : nat) (w cap : positive) :
  pymin (of_len c * (Z.pos w # 10)) (Z.pos cap # 10)
  == inject_Z (Z.min (Z.pos w * Z.of_nat c) (Z.pos cap)) * (1 # 10).
Proof.
  rewrite pymin_spec. unfold of_len.
  assert (E1 : inject_Z (Z.of_nat c) * (Z.pos w # 10)
               == inject_Z (Z.pos w * Z.of_nat c) * (1 # 10)).
  { rewrite inject_Z_mult. unfold Qeq. cbn. lia. }
  assert (E2 : Z.pos cap # 10 == inject_Z (Z.pos cap) * (1 # 10)).
  { unfold Qeq. cbn. lia. }
  destruct (Z.min_spec (Z.pos w * Z.of_nat c) (Z.pos cap)) as [[H ->] | [H ->]].
  - rewrite Q.min_l; [exact E1|]. rewrite E1, E2.
    apply Z.lt_le_incl in H. rewrite Zle_Qle in H. lra.
  - rewrite Q.min_r; [exact E2|]. rewrite E1, E2.
    rewrite Zle_Qle in H. lra.
Qed.

Section Totals.
Context {POI : Type} (pois : gmap string (list POI)).

Local Abbreviation n := (count (category_counts pois)).

Lemma unrounded_total :
  py_sum (map snd (category_scores (category_counts pois))) == capped_sum pois.
Proof.
  unfold capped_sum, py_sum, category_scores. cbn [map snd foldl].
  rewrite !pymin_spec. ring.
Qed.

Lemma unrounded_total_tenths :
  exists z, py_sum (map snd (category_scores (category_counts pois)))
            == inject_Z z / 10.
Proof.
  pose (c := fun k => Z.of_nat (default 0%nat (category_counts pois !! k))).
  exists (Z.min (5 * c "dining") 25 + Z.min (3 * c "shopping") 15
          + Z.min (3 * c "services") 15 + Z.min (5 * c "transit") 25
          + Z.min (5 * c "healthcare") 10 + Z.min (5 * c "entertainment") 10)%Z.
  unfold py_sum, category_scores, count. cbn [map snd foldl].
  rewrite (capped_tenths _ 5 25), !(capped_tenths _ 3 15), (capped_tenths _ 5 25),
    !(capped_tenths _ 5 10).
  rewrite div10, !inject_Z_plus. subst c. cbn beta. ring.
Qed.

Lemma count_nonneg k : 0 <= n k.
Proof.
  unfold count, of_len. change 0 with (inject_Z 0).
  rewrite <- Zle_Qle. lia.
Qed.

Lemma capped_sum_range : 0 <= capped_sum pois <= 10.
Proof.
  unfold capped_sum.
  pose proof (count_nonneg "dining"). pose proof (count_nonneg "shopping").
  pose proof (count_nonneg "services"). pose proof (count_nonneg "transit").
  pose proof (count_nonneg "healthcare"). pose proof (count_nonneg "entertainment").
  repeat match goal with
  | |- context [Qmin ?x ?y] =>
      let H := fresh "M" in
      destruct (Q.min_spec x y) as [[? H] | [? H]]; rewrite H
  end; lra.
Qed.

(** C8.  The returned total score is the sum over the six categories of
    min(count * weight, cap); it lies in [0,10]; and ten dining places
    with nothing else score 2.5, grade F. *)
Theorem convenience_total_is_capped_sum :
  let r := calculate_convenience_score pois in
  total_score r == capped_sum pois
  /\ 0 <= total_score r <= 10
  /\ (n "dining" == 10 -> n "shopping" == 0 -> n "services" == 0 ->
      n "transit" == 0 -> n "healthcare" == 0 -> n "entertainment" == 0 ->
      total_score r == 2.5 /\ convenience_grade r = "F").
Proof.
  cbn zeta. unfold calculate_convenience_score.
  cbn [total_score convenience_grade].
  assert (Ht : round1 (py_sum (map snd (category_scores (category_counts pois))))
               == capped_sum pois).
  { destruct unrounded_total_tenths as [z Hz].
    rewrite Hz at 1. rewrite round1_tenths, <- Hz. apply unrounded_total. }
  split; [exact Ht|]. split; [rewrite Ht; apply capped_sum_range|].
  intros Hd Hs Hv Htr Hh He.
  assert (Hc : capped_sum pois == 2.5).
  { unfold capped_sum.
    repeat match goal with
    | |- context [Qmin ?x ?y] =>
        let H := fresh "M" in
        destruct (Q.min_spec x y) as [[? H] | [? H]]; rewrite H
    end; lra. }
  split; [now rewrite Ht|].
  pose proof unrounded_total as Hu. rewrite Hc in Hu.
  unfold _get_grade.
  set (s := py_sum _) in *.
  assert (H1 : geb s 8.5 = false) by (apply geb_lt; lra).
  assert (H2 : geb s 7.0 = false) by (apply geb_lt; lra).
  assert (H3 : geb s 5.0 = false) by (apply geb_lt; lra).
  assert (H4 : geb s 3.0 = false) by (apply geb_lt; lra).
  now rewrite H1, H2, H3, H4.
Qed.

End Totals.

Lemma convenience_total_is_capped_sum_witness :
  total_score (calculate_convenience_score ten_dining) == 2.5
  /\ convenience_grade (calculate_convenience_score ten_dining) = "F".
Proof.
  destruct (convenience_total_is_capped_sum ten_dining) as (_ & _ & H).
  apply H; reflexivity.
Defined.

End OverpassFacts.

(** ** Regional equity: access, mobility and the county analysis *)

Module EquityAssessmentFacts.
Import Equity EquityFacts EquityAssessment.

Lemma access_score_monotone s1 s2 : s1 <= s2 -> access_score s1 <= access_score s2.
Proof. intros H. unfold access_score. cmp_cases; lra. Qed.

Lemma mobility_score_antitone v1 v2 :
  v1 <= v2 -> mobility_score v2 <= mobility_score v1.
Proof. intros H. unfold mobility_score, pymax. cmp_cases; lra. Qed.

Lemma pymin_monotone a b c : a <= b -> pymin a c <= pymin b c.
Proof.
  intros H. apply pymin_glb.
  - pose proof (pymin_le_l a c). lra.
  - apply pymin_le_r.
Qed.

(** The Access component never decreases when the stations per 1000
    people increase, and it is 100 from 1.0 stations per 1000 on. *)
Theorem access_grows_and_saturates income p v s1 s2 :
  s1 <= s2 ->
  let access s := item (components (_calculate_equity_score s income p v)) "access" in
  access s1 <= access s2 /\ (1 <= s1 -> access s1 == 100 /\ access s2 == 100).
Proof.
  intros H access. subst access. cbn beta.
  rewrite !components_of_result, !item_access. split.
  - apply pymin_monotone, round1_mono. now apply access_score_monotone.
  - intros H1.
    assert (E : forall s, 1 <= s -> pymin (round1 (access_score s)) 100 == 100).
    { intros s Hs. unfold access_score.
      assert (G : geb s 1.0 = true) by (apply geb_le; lra).
      rewrite G. reflexivity. }
    split; apply E; lra.
Qed.

Lemma access_grows_and_saturates_witness :
  item (components (_calculate_equity_score 1.2 60000 12 8)) "access" == 100
  /\ item (components (_calculate_equity_score 2 60000 12 8)) "access" == 100.
Proof.
  assert (H : 1.2 <= 2) by lra.
  destruct (access_grows_and_saturates 60000 12 8 1.2 2 H) as [_ Hs].
  apply Hs. lra.
Defined.

(** The Mobility component lies in [20,90] for every no-vehicle rate,
    never increases with the rate, and is 90 up to a rate of 5. *)
Theorem mobility_bounded_and_never_increases spk income p v1 v2 :
  v1 <= v2 ->
  let mobility v := item (components (_calculate_equity_score spk income p v)) "mobility" in
  20 <= mobility v2 /\ mobility v2 <= mobility v1 /\ mobility v1 <= 90
  /\ (v2 <= 5 -> mobility v1 == 90 /\ mobility v2 == 90).
Proof.
  intros H mobility. subst mobility. cbn beta.
  rewrite !components_of_result, !item_mobility.
  pose proof (mobility_component_range v1) as [_ H1].
  pose proof (mobility_component_range v2) as [H2 _].
  repeat split; try assumption.
  - apply round1_mono. now apply mobility_score_antitone.
  - unfold mobility_score.
    assert (G : leb v1 5 = true) by (apply leb_le; lra). rewrite G. reflexivity.
  - unfold mobility_score.
    assert (G : leb v2 5 = true) by (apply leb_le; lra). rewrite G. reflexivity.
Qed.

Lemma mobility_bounded_and_never_increases_witness :
  item (components (_calculate_equity_score 0.3 60000 12 30)) "mobility"
  <= item (components (_calculate_equity_score 0.3 60000 12 8)) "mobility".
Proof.
  assert (H : 8 <= 30) by lra.
  destruct (mobility_bounded_and_never_increases 0.3 60000 12 8 30 H) as (_ & Hm & _).
  exact Hm.
Defined.

(** *** The access assessment *)

(** The decision table of [_assess_access_level]: access is adequate from
    0.4 stations per 1000 on, the need is high from a poverty rate of 15
    on, and the priority score is 5, 4, 3 or 2 for the four combinations. *)
Theorem priority_decision_table spk p :
  let a := _assess_access_level spk p in
  (access_adequate a = true <-> 0.4 <= spk)
  /\ (priority_score a = 5%Z /\ priority a = "Urgent" <-> spk < 0.4 /\ 15 <= p)
  /\ (priority_score a = 4%Z /\ priority a = "High" <-> spk < 0.4 /\ p < 15)
  /\ (priority_score a = 3%Z /\ priority a = "Moderate" <-> 0.4 <= spk /\ 15 <= p)
  /\ (priority_score a = 2%Z /\ priority a = "Standard" <-> 0.4 <= spk /\ p < 15).
Proof.
  unfold _assess_access_level. cmp_cases; cbn;
    repeat split; intros; try lra; try discriminate;
    repeat match goal with H : _ /\ _ |- _ => destruct H end;
    try discriminate; try lra.
Qed.

(** More stations per 1000 never raise the priority, and more poverty
    never lowers it. *)
Theorem priority_is_monotone s1 s2 p1 p2 :
  s1 <= s2 -> p1 <= p2 ->
  (priority_score (_assess_access_level s2 p1)
   <= priority_score (_assess_access_level s1 p2))%Z.
Proof.
  intros Hs Hp. unfold _assess_access_level.
  cmp_cases; cbn; try lia; exfalso; lra.
Qed.

Lemma priority_is_monotone_witness :
  (priority_score (_assess_access_level 0.9 5)
   <= priority_score (_assess_access_level 0.2 18))%Z.
Proof.
  assert (Hs : 0.2 <= 0.9) by lra. assert (Hp : 5 <= 18) by lra.
  exact (priority_is_monotone 0.2 0.9 5 18 Hs Hp).
Defined.




(** *** Recommendations *)

Section RecommendationFacts.
Context (format_2f format_value : Q -> string).

Local Abbreviation recs := (_generate_recommendations format_2f format_value).

(** A recommendation list has between one and five entries, and the
    general Community Engagement entry is in it exactly when the targeted
    rules (low access 1, high poverty 2, low income 1, low score 1) gave
    fewer than three. *)
Theorem recommendations_count e p s (lvl : string) :
  let targeted :=
    ((if ltb s 0.3 then 1 else 0) + (if gtb p 15 then 2 else 0)
     + (if in_list lvl ["Low"; "Lower Middle"] then 1 else 0)
     + (if ltb e 50 then 1 else 0))%nat in
  (1 <= length (recs e p s lvl) <= 5)%nat
  /\ (has_category "Community Engagement" (recs e p s lvl) = true
      <-> (targeted < 3)%nat)
  /\ (has_category "Infrastructure Expansion" (recs e p s lvl) = true
      <-> s < 0.3).
Proof.
  unfold _generate_recommendations, has_category.
  destruct (ltb s 0.3) eqn:Es; [apply ltb_lt in Es | apply ltb_ge in Es];
    destruct (gtb p 15), (in_list lvl _), (ltb e 50); cbn;
    repeat split; intros; try lia; try reflexivity; try discriminate; try lra.
Qed.


End RecommendationFacts.


End EquityAssessmentFacts.

(** ** Global equity: income levels, benchmarks and score range *)

Module GlobalScoreFacts.
Import GlobalEquity GlobalDemographics.

(** The two US income classifications agree: the global analyzer names
    the level of the regional analyzer, followed by " Income". *)
Theorem us_income_levels_agree (median_income : Q) :
  _get_us_income_level median_income
  = (EquityAssessment.level (EquityAssessment._analyze_income_level median_income)
     ++ " Income")%string.
Proof.
  unfold _get_us_income_level, EquityAssessment._analyze_income_level.
  cmp_cases; reflexivity.
Qed.

(** On the US path the density benchmark is 0.5 stations per km2 from a
    median income of 100000 on, 0.2 from 35000 on and 0.05 below: the
    level names are matched by the substrings "High" and "Middle". *)
Theorem us_benchmark_by_income (median_income : Q) :
  station_benchmark (_get_us_income_level median_income)
  = if geb median_income 100000 then 0.5
    else if geb median_income 35000 then 0.2
    else 0.05.
Proof.
  unfold _get_us_income_level.
  cmp_cases; try reflexivity; exfalso; lra.
Qed.

(** On the World Bank path the benchmark is 0.5 from a GDP per capita of
    40000 on, 0.2 from 4000 on and 0.05 below; and the substring "Low"
    matches both "Low Income" and "Lower Middle Income", that is every GDP
    per capita below 12000. *)
Theorem world_bank_benchmark_by_gdp (gdp_pc : Q) :
  let lvl := WorldBank.income_level_of gdp_pc in
  station_benchmark lvl
  = (if geb gdp_pc 40000 then 0.5 else if geb gdp_pc 4000 then 0.2 else 0.05)
  /\ (contains "Low" lvl = true <-> gdp_pc < 12000).
Proof.
  unfold WorldBank.income_level_of.
  cmp_cases; (split; [try reflexivity; exfalso; lra|]);
    split; intros H; try reflexivity; try lra; vm_compute in H; discriminate.
Qed.

(** *** Range of the score *)

Section FourComponents.
Variables access economic afford ready : Q.

Local Abbreviation comps :=
  (<["infrastructure_readiness" := ready]>
   (<["affordability" := afford]>
   (<["economic_readiness" := economic]>
   (<["access" := access]> (∅ : gmap string Q))))).

Lemma global_items :
  item comps "access" = access /\ item comps "economic_readiness" = economic
  /\ item comps "affordability" = afford
  /\ item comps "infrastructure_readiness" = ready.
Proof. repeat split. Qed.

Lemma weighted_total_eq :
  weighted_total comps
  == access * 0.35 + economic * 0.25 + afford * 0.20 + ready * 0.20.
Proof.
  unfold weighted_total, weights, py_sum. cbn [map foldl fst snd].
  destruct global_items as (-> & -> & -> & ->). ring.
Qed.

End FourComponents.

Lemma station_benchmark_positive lvl : 0 < station_benchmark lvl.
Proof.
  unfold station_benchmark.
  destruct (contains "High" lvl); [reflexivity|].
  destruct (contains "Middle" lvl); reflexivity.
Qed.

Lemma economic_readiness_range income : 20 <= economic_readiness income <= 100.
Proof. unfold economic_readiness. cmp_cases; lra. Qed.

Lemma affordability_range p : 20 <= affordability p <= 100.
Proof. unfold affordability. cmp_cases; lra. Qed.

Lemma global_access_range n r lvl a :
  access_component n r lvl = Ok a -> 0 <= a <= 100.
Proof.
  unfold access_component, div. change (r ^ 2) with (r * r).
  destruct (eqb (3.14159 * (r * r)) 0) eqn:E; [discriminate|].
  cbn [mbind outcome_bind]. intros [= <-].
  apply eqb_false in E.
  pose proof (InfrastructureFacts.sq_nonneg r) as Hsq.
  assert (Harea : 0 < 3.14159 * (r * r)).
  { destruct (Qlt_le_dec 0 (3.14159 * (r * r))); [assumption|].
    exfalso. apply E. lra. }
  set (area := 3.14159 * (r * r)) in *.
  assert (Hn : 0 <= of_len n).
  { unfold of_len. change 0 with (inject_Z 0). rewrite <- Zle_Qle. lia. }
  assert (Hd : 0 <= of_len n / area)
    by (apply Qle_shift_div_l; [exact Harea | lra]).
  pose proof (station_benchmark_positive lvl) as Hb.
  assert (Hq : 0 <= of_len n / area / station_benchmark lvl)
    by (apply Qle_shift_div_l; [exact Hb | lra]).
  set (q := of_len n / area / station_benchmark lvl) in *.
  assert (Hr : 0 <= pymin q 2.0 <= 2).
  { split; [apply pymin_glb; lra | pose proof (pymin_le_r q 2.0); lra]. }
  split.
  - apply pymin_glb; [|lra]. apply (round1_ge _ 0 0); [reflexivity | ]. lra.
  - apply pymin_le_r.
Qed.

Lemma global_score_bounds n (d : gmap string pyval) r cc res :
  _calculate_global_equity_score n d r cc = Ok res ->
  (cc = "USA"
   \/ exists ev el, get d "ev_readiness" (PNum 50) = PNum ev
                    /\ get d "electricity_access" (PNum 100) = PNum el
                    /\ 0 <= ev <= 100 /\ 0 <= el <= 100) ->
  0 <= item (components res) "access" <= 100
  /\ 20 <= item (components res) "economic_readiness" <= 100
  /\ 20 <= item (components res) "affordability" <= 100
  /\ 0 <= item (components res) "infrastructure_readiness" <= 100
  /\ 9 <= score res <= 100.
Proof.
  unfold _calculate_global_equity_score. intros Hres Hcc.
  destruct (as_str _) as [level|]; [|discriminate]. cbn [mbind outcome_bind] in Hres.
  destruct (access_component n r level) as [access|] eqn:Ha; [|discriminate].
  cbn [mbind outcome_bind] in Hres.
  destruct (as_num (get d "income_per_capita" _)) as [income|]; [|discriminate].
  cbn [mbind outcome_bind] in Hres.
  destruct (as_num (py_or _ _)) as [poverty|]; [|discriminate].
  cbn [mbind outcome_bind] in Hres.
  destruct (infrastructure_readiness d cc) as [ready|] eqn:Hr; [|discriminate].
  cbn [mbind outcome_bind] in Hres.
  destruct (global_grade _) as [g rt]. injection Hres as <-.
  cbn [components score].
  destruct (global_items access (economic_readiness income) (affordability poverty) ready)
    as (-> & -> & -> & ->).
  pose proof (global_access_range _ _ _ _ Ha) as Hacc.
  pose proof (economic_readiness_range income) as He.
  pose proof (affordability_range poverty) as Hp.
  assert (Hready : 0 <= ready <= 100).
  { unfold infrastructure_readiness in Hr.
    destruct (negb (String.eqb cc "USA")) eqn:Ecc.
    - destruct Hcc as [-> | (ev & el & Hev & Hel & Hev' & Hel')]; [discriminate|].
      rewrite Hev, Hel in Hr. cbn [as_num mbind outcome_bind] in Hr.
      injection Hr as <-. apply round1_unit_interval.
      assert (E : (ev + el) / 2 == (ev + el) * (1 # 2)) by field.
      rewrite E. lra.
    - injection Hr as <-. lra. }
  repeat split; try lra.
  - apply (round1_ge _ 9 90); [reflexivity|]. rewrite weighted_total_eq. lra.
  - apply (round1_le _ 100 1000); [reflexivity|]. rewrite weighted_total_eq. lra.
Qed.

(** Whenever the global scorer returns, and the country is the USA or its
    EV readiness and electricity access are percentages, every component
    lies in [0,100] (economic readiness and affordability in [20,100]) and
    the score in [9,100]. *)
Theorem global_score_range n (d : gmap string pyval) r cc res :
  _calculate_global_equity_score n d r cc = Ok res ->
  (cc = "USA"
   \/ exists ev el, get d "ev_readiness" (PNum 50) = PNum ev
                    /\ get d "electricity_access" (PNum 100) = PNum el
                    /\ 0 <= ev <= 100 /\ 0 <= el <= 100) ->
  0 <= item (components res) "access" <= 100
  /\ 20 <= item (components res) "economic_readiness" <= 100
  /\ 20 <= item (components res) "affordability" <= 100
  /\ 0 <= item (components res) "infrastructure_readiness" <= 100
  /\ 9 <= score res <= 100.
Proof. apply global_score_bounds. Qed.

Lemma global_score_range_witness :
  exists res, _calculate_global_equity_score 50 thailand 10 "THA" = Ok res
              /\ 9 <= score res <= 100.
Proof.
  destruct (_calculate_global_equity_score 50 thailand 10 "THA") as [res|e] eqn:E.
  - exists res. split; [reflexivity|].
    assert (H : "THA" = "USA"
                \/ exists ev el, get thailand "ev_readiness" (PNum 50) = PNum ev
                      /\ get thailand "electricity_access" (PNum 100) = PNum el
                      /\ 0 <= ev <= 100 /\ 0 <= el <= 100).
    { right. exists 50, 100. repeat split; lra. }
    exact (proj2 (proj2 (proj2 (proj2 (global_score_range 50 thailand 10 "THA" res E H))))).
  - vm_compute in E. discriminate.
Defined.

(** The Access component of the global scorer is 0 without stations and
    100 as soon as the station count reaches twice the benchmark density
    times the search area. *)
Theorem global_access_empty_and_saturated n r lvl a :
  access_component n r lvl = Ok a ->
  (n = 0%nat -> a == 0)
  /\ (2 * station_benchmark lvl * (3.14159 * r ^ 2) <= of_len n -> a == 100).
Proof.
  intros Ha. pose proof (global_access_range _ _ _ _ Ha) as Hrange.
  revert Ha. unfold access_component, div. change (r ^ 2) with (r * r).
  destruct (eqb (3.14159 * (r * r)) 0) eqn:E; [discriminate|].
  cbn [mbind outcome_bind]. intros [= Ha].
  apply eqb_false in E.
  pose proof (InfrastructureFacts.sq_nonneg r) as Hsq.
  assert (Harea : 0 < 3.14159 * (r * r)).
  { destruct (Qlt_le_dec 0 (3.14159 * (r * r))); [assumption|].
    exfalso. apply E. lra. }
  set (area := 3.14159 * (r * r)) in *.
  pose proof (station_benchmark_positive lvl) as Hb.
  set (q := of_len n / area / station_benchmark lvl) in *.
  split.
  - intros ->.
    assert (Hq : q <= 0).
    { subst q. change (of_len 0) with 0.
      assert (E0 : 0 / area / station_benchmark lvl == 0) by (unfold Qdiv; ring).
      rewrite E0. lra. }
    assert (Hr : round1 (pymin q 2.0 * 50) <= 0).
    { apply (round1_le _ 0 0); [reflexivity|].
      pose proof (pymin_le_l q 2.0). lra. }
    pose proof (pymin_le_l (round1 (pymin q 2.0 * 50)) 100) as Hle.
    rewrite Ha in Hle. lra.
  - intros Hn.
    assert (Hq : 2 <= q).
    { subst q. apply Qle_shift_div_l; [exact Hb|].
      apply Qle_shift_div_l; [exact Harea|]. exact Hn. }
    assert (Hr : 100 <= round1 (pymin q 2.0 * 50)).
    { apply (round1_ge _ 100 1000); [reflexivity|].
      assert (2 <= pymin q 2.0) by (apply pymin_glb; lra). lra. }
    assert (Hge : 100 <= pymin (round1 (pymin q 2.0 * 50)) 100)
      by (apply pymin_glb; lra).
    rewrite Ha in Hge. lra.
Qed.

Lemma global_access_empty_and_saturated_witness :
  exists a, access_component 0 10 "High Income" = Ok a /\ a == 0.
Proof.
  destruct (access_component 0 10 "High Income") as [a|e] eqn:E.
  - exists a. split; [reflexivity|].
    apply (proj1 (global_access_empty_and_saturated 0 10 "High Income" a E)).
    reflexivity.
  - vm_compute in E. discriminate.
Defined.

(** *** Recommendations of the global analysis *)

Section GlobalRecommendationFacts.
Context (format_count : nat -> string) (format_value : Q -> string).
Import EquityAssessment.

(** Whenever the global recommendations are produced there are between
    one and five of them; infrastructure expansion is recommended exactly
    below 50 stations, and the affordability programme exactly when the
    income level contains "Low". *)
Theorem global_recommendations_count e (d : gmap string pyval) n recs :
  _generate_global_recommendations format_count format_value e d n = Ok recs ->
  (1 <= length recs <= 5)%nat
  /\ (has_category "Infrastructure Expansion" recs = true <-> (n < 50)%nat)
  /\ (forall lvl, get d "income_level" (PStr "") = PStr lvl ->
        (has_category "Affordability" recs = true <-> contains "Low" lvl = true)).
Proof.
  unfold _generate_global_recommendations, has_category.
  destruct (get d "income_level" (PStr "")) as [|q|level]; try discriminate.
  cbn [as_str mbind outcome_bind].
  destruct (n <? 50)%nat eqn:En;
    [apply Nat.ltb_lt in En | apply Nat.ltb_ge in En];
    destruct (contains "Low" level) eqn:El;
    (destruct (truthy _);
     [destruct (as_num (py_or _ _)) as [pv|]; [|discriminate];
      cbn [mbind outcome_bind]; destruct (gtb pv 15) |]);
    cbn [mbind outcome_bind];
    (destruct (as_num (get d "ev_readiness" _)) as [rd|]; [|discriminate]);
    cbn [mbind outcome_bind]; destruct (ltb rd 50); cbn;
    intros [= <-]; cbn;
    (split; [lia|]);
    (split; [split; intros; try reflexivity; try discriminate; lia|]);
    intros lvl [= <-]; rewrite El; split; intros; try reflexivity; discriminate.
Qed.

End GlobalRecommendationFacts.

Lemma global_recommendations_count_witness :
  exists recs,
    _generate_global_recommendations (fun _ => "") (fun _ => "") 58.9 thailand 20
    = Ok recs
    /\ (1 <= length recs <= 5)%nat.
Proof.
  destruct (_generate_global_recommendations (fun _ => "") (fun _ => "") 58.9 thailand 20)
    as [recs|e] eqn:E.
  - exists recs. split; [reflexivity|].
    exact (proj1 (global_recommendations_count (fun _ => "") (fun _ => "")
                    58.9 thailand 20 recs E)).
  - vm_compute in E. discriminate.
Defined.

(** *** The World Bank path, end to end *)

Lemma num_or_zero_range x lo hi : lo <= 0 <= hi -> lo <= x <= hi ->
  lo <= WorldBank.num_or x 0 <= hi.
Proof. intros H0 Hx. unfold WorldBank.num_or. destruct (eqb x 0); lra. Qed.

Lemma ev_readiness_range raw gdp_pc urban :
  0 <= gdp_pc -> 0 <= urban <= 100 ->
  0 <= WorldBank.indicator raw "electricity_access_percent" 0 <= 100 ->
  0 <= WorldBank.ev_readiness_of raw gdp_pc urban <= 100.
Proof.
  intros Hg Hu He. unfold WorldBank.ev_readiness_of.
  pose proof (num_or_zero_range _ 0 100 ltac:(lra) He) as He'.
  pose proof (num_or_zero_range _ 0 100 ltac:(lra) Hu) as Hu'.
  assert (Hp : 0 <= pymin (gdp_pc / 500) 40).
  { apply pymin_glb; [|lra].
    assert (E : gdp_pc / 500 == gdp_pc * (1 # 500)) by field. rewrite E. lra. }
  split; [apply pymin_glb; lra | apply pymin_le_l].
Qed.

(** A World Bank record with a non-negative GDP per capita and with
    electricity access and urban share between 0 and 100 is always scored:
    for every radius between one metre and 100000 km the global scorer
    raises nothing on the demographics built from it, and the score lies
    in [9,100]. *)
Theorem world_bank_record_is_scored name (raw : gmap string Q) n r cc :
  raw <> ∅ -> 0.001 <= r <= 100000 ->
  0 <= WorldBank.indicator raw "gdp_per_capita" 0 ->
  0 <= WorldBank.indicator raw "electricity_access_percent" 0 <= 100 ->
  0 <= WorldBank.indicator raw "urban_population_percent" 50 <= 100 ->
  exists d res,
    _get_global_demographics (WorldBank.get_country_profile name raw) = Some d
    /\ _calculate_global_equity_score n d r cc = Ok res
    /\ 9 <= score res <= 100
    /\ 0 <= item (components res) "infrastructure_readiness" <= 100.
Proof.
  intros Hraw Hrad Hg He Hu.
  assert (Hr : ~ r == 0) by lra.
  unfold WorldBank.get_country_profile.
  destruct (decide (raw = ∅)) as [|_]; [contradiction|].
  cbn [_get_global_demographics WorldBank.country_name WorldBank.population
       WorldBank.urban_percent WorldBank.vehicles_per_1000 WorldBank.gdp_per_capita
       WorldBank.income_level WorldBank.poverty_rate WorldBank.electricity_access
       WorldBank.ev_readiness_score].
  eexists.
  match goal with |- exists res, Some ?m = Some _ /\ _ => set (d := m) end.
  assert (Hev : get d "ev_readiness" (PNum 50)
                = PNum (round1 (WorldBank.ev_readiness_of raw
                          (WorldBank.indicator raw "gdp_per_capita" 0)
                          (WorldBank.indicator raw "urban_population_percent" 50))))
    by reflexivity.
  assert (Hel : get d "electricity_access" (PNum 100)
                = PNum (round1 (WorldBank.num_or
                          (WorldBank.indicator raw "electricity_access_percent" 0) 0)))
    by reflexivity.
  assert (Hret : returns (_calculate_global_equity_score n d r cc)).
  { unfold _calculate_global_equity_score.
    assert (E1 : get d "income_level" (PStr "Middle Income")
                 = PStr (WorldBank.income_level_of
                           (WorldBank.indicator raw "gdp_per_capita" 0)))
      by reflexivity.
    rewrite E1. cbn [as_str mbind outcome_bind].
    unfold access_component.
    rewrite div_not_zero_division
      by (apply DivisionFacts.area_nonzero; [vm_compute; discriminate | exact Hr]).
    cbn [mbind outcome_bind].
    assert (E2 : exists x, get d "income_per_capita" (PNum 0) = PNum x)
      by (eexists; reflexivity).
    destruct E2 as [x ->]. cbn [as_num mbind outcome_bind].
    assert (E3 : exists y, py_or (get_none d "poverty_rate") (PNum 0) = PNum y).
    { unfold get_none.
      assert (E : exists o, get d "poverty_rate" PNone = opt_num o)
        by (eexists; reflexivity).
      destruct E as [[y|] ->]; cbn [opt_num]; unfold py_or;
        [destruct (truthy (PNum y)) |]; eexists; reflexivity. }
    destruct E3 as [y ->]. cbn [as_num mbind outcome_bind].
    unfold infrastructure_readiness. rewrite Hev, Hel.
    destruct (negb _); cbn [as_num mbind outcome_bind];
      destruct (global_grade _); eexists; reflexivity. }
  destruct Hret as [res Hres]. exists res.
  split; [reflexivity|]. split; [exact Hres|].
  assert (Hrange : cc = "USA"
            \/ exists ev el, get d "ev_readiness" (PNum 50) = PNum ev
                  /\ get d "electricity_access" (PNum 100) = PNum el
                  /\ 0 <= ev <= 100 /\ 0 <= el <= 100).
  { right. eexists _, _. split; [exact Hev|]. split; [exact Hel|]. split.
    - apply round1_unit_interval. now apply ev_readiness_range.
    - apply round1_unit_interval. apply num_or_zero_range; [lra | exact He]. }
  destruct (global_score_bounds n d r cc res Hres Hrange) as (_ & _ & _ & Hi & Hs).
  split; assumption.
Qed.

Lemma world_bank_record_is_scored_witness :
  exists d res,
    _get_global_demographics
      (WorldBank.get_country_profile "Thailand" WorldBank.thai_indicators) = Some d
    /\ _calculate_global_equity_score 120 d 10 "THA" = Ok res
    /\ 9 <= score res <= 100.
Proof.
  assert (H1 : WorldBank.thai_indicators <> ∅) by (vm_compute; discriminate).
  assert (H2 : 0.001 <= 10 <= 100000) by (split; vm_compute; discriminate).
  assert (H3 : 0 <= WorldBank.indicator WorldBank.thai_indicators "gdp_per_capita" 0)
    by (vm_compute; discriminate).
  assert (H4 : 0 <= WorldBank.indicator WorldBank.thai_indicators
                      "electricity_access_percent" 0 <= 100)
    by (split; vm_compute; discriminate).
  assert (H5 : 0 <= WorldBank.indicator WorldBank.thai_indicators
                      "urban_population_percent" 50 <= 100)
    by (split; vm_compute; discriminate).
  destruct (world_bank_record_is_scored "Thailand" WorldBank.thai_indicators 120 10 "THA"
              H1 H2 H3 H4 H5) as (d & res & Hd & Hres & Hs & _).
  exists d, res. split; [exact Hd | split; [exact Hres | exact Hs]].
Defined.

(** *** The US path, end to end *)

(** A Census record with a numeric median income and poverty rate is
    always scored on the US path: for every radius between one metre and
    100000 km the global scorer raises nothing on the demographics built
    from it, the
    infrastructure readiness is the fixed 90, the affordability is read off
    the poverty rate, and the score lies in [9,100]. *)
Theorem census_record_is_scored (equity_data : gmap string pyval) income poverty n r :
  equity_data <> ∅ -> 0.001 <= r <= 100000 ->
  get equity_data "median_income" (PNum 0) = PNum income ->
  get equity_data "poverty_rate" (PNum 0) = PNum poverty ->
  exists d res,
    _get_us_demographics equity_data = Some d
    /\ _calculate_global_equity_score n d r "USA" = Ok res
    /\ item (components res) "infrastructure_readiness" = 90
    /\ item (components res) "economic_readiness" = economic_readiness income
    /\ item (components res) "affordability" == affordability poverty
    /\ 9 <= score res <= 100.
Proof.
  intros Hne Hrad Hi Hp.
  assert (Hr : ~ r == 0) by lra.
  unfold _get_us_demographics.
  destruct (decide (equity_data = ∅)) as [|_]; [contradiction|].
  rewrite Hi. cbn [as_num].
  eexists.
  match goal with |- exists res, Some ?m = Some _ /\ _ => set (d := m) end.
  assert (Hret : exists a g rt p',
            _calculate_global_equity_score n d r "USA"
            = Ok {| score := round1 (weighted_total
                       (<["infrastructure_readiness" := 90]>
                        (<["affordability" := affordability p']>
                        (<["economic_readiness" := economic_readiness income]>
                        (<["access" := a]> ∅)))));
                    grade := g; rating := rt;
                    components :=
                      <["infrastructure_readiness" := 90]>
                      (<["affordability" := affordability p']>
                      (<["economic_readiness" := economic_readiness income]>
                      (<["access" := a]> ∅))) |}
            /\ p' == poverty).
  { unfold _calculate_global_equity_score.
    assert (E1 : get d "income_level" (PStr "Middle Income")
                 = PStr (_get_us_income_level income)) by reflexivity.
    rewrite E1. cbn [as_str mbind outcome_bind].
    unfold access_component.
    rewrite div_not_zero_division
      by (apply DivisionFacts.area_nonzero; [vm_compute; discriminate | exact Hr]).
    cbn [mbind outcome_bind].
    assert (E2 : get d "income_per_capita" (PNum 0) = PNum income) by reflexivity.
    rewrite E2. cbn [as_num mbind outcome_bind].
    assert (E3 : get_none d "poverty_rate" = PNum poverty).
    { unfold get_none. transitivity (get equity_data "poverty_rate" (PNum 0));
        [reflexivity | exact Hp]. }
    rewrite E3. unfold py_or. cbn [truthy].
    destruct (eqb poverty 0) eqn:E0; cbn [negb as_num mbind outcome_bind
      infrastructure_readiness String.eqb Ascii.eqb Bool.eqb];
      destruct (global_grade _) as [g rt]; eexists _, g, rt, _;
      (split; [reflexivity|]); [apply eqb_true in E0; now symmetry | reflexivity]. }
  destruct Hret as (a & g & rt & p' & Hres & Hp').
  eexists. split; [reflexivity|]. split; [exact Hres|].
  cbn [components score].
  destruct (global_items a (economic_readiness income) (affordability p') 90)
    as (_ & -> & -> & ->).
  split; [reflexivity|]. split; [reflexivity|]. split.
  - unfold affordability, leb. rewrite !(Qleb_comp _ _ Hp' _ _ (Qeq_refl _)). reflexivity.
  - assert (Hrange : "USA" = "USA"
        \/ exists ev el, get d "ev_readiness" (PNum 50) = PNum ev
              /\ get d "electricity_access" (PNum 100) = PNum el
              /\ 0 <= ev <= 100 /\ 0 <= el <= 100) by now left.
    exact (proj2 (proj2 (proj2 (proj2
             (global_score_bounds n d r "USA" _ Hres Hrange))))).
Qed.

Lemma census_record_is_scored_witness :
  exists d res,
    _get_us_demographics sample_metrics = Some d
    /\ _calculate_global_equity_score 50 d 10 "USA" = Ok res
    /\ 9 <= score res <= 100.
Proof.
  assert (H1 : sample_metrics <> ∅) by (vm_compute; discriminate).
  assert (H2 : 0.001 <= 10 <= 100000) by (split; vm_compute; discriminate).
  assert (H3 : get sample_metrics "median_income" (PNum 0) = PNum 136689)
    by reflexivity.
  assert (H4 : get sample_metrics "poverty_rate" (PNum 0) = PNum 10.48)
    by reflexivity.
  destruct (census_record_is_scored sample_metrics 136689 10.48 50 10 H1 H2 H3 H4)
    as (d & res & Hd & Hres & _ & _ & _ & Hs).
  exists d, res. split; [exact Hd | split; [exact Hres | exact Hs]].
Defined.

End GlobalScoreFacts.

(** ** Charging levels and operators *)

Module StationAnalysisFacts.
Import StationAnalysis.

Local Abbreviation sum4 l := (level1 l + level2 l + level3 l + dc_fast l)%Z.

Lemma quantity_sum_cons q qs :
  quantity_sum (Some q :: qs) = (q + quantity_sum qs)%Z.
Proof. reflexivity. Qed.

Lemma quantity_sum_app qs1 qs2 :
  quantity_sum (qs1 ++ qs2) = (quantity_sum qs1 + quantity_sum qs2)%Z.
Proof.
  induction qs1 as [|q qs1 IH]; [reflexivity|].
  change (quantity_sum ((q :: qs1) ++ qs2))
    with (default 0 q + quantity_sum (qs1 ++ qs2))%Z.
  change (quantity_sum (q :: qs1)) with (default 0 q + quantity_sum qs1)%Z.
  lia.
Qed.

Lemma count_connection_spec levels c :
  match count_connection levels c with
  | Ok levels' =>
      exists q, field_get (quantity c) 1%Z = Some q /\ sum4 levels' = (sum4 levels + q)%Z
  | Raise e => e = TypeError /\ field_get (quantity c) 1%Z = None
  end.
Proof.
  unfold count_connection.
  destruct (field_get (quantity c) 1%Z) as [q|]; cbn [as_int mbind outcome_bind].
  - exists q. split; [reflexivity|].
    destruct (ltb _ 5); [cbn; lia|]. destruct (ltb _ 22); [cbn; lia|].
    destruct (leb _ 50); cbn; lia.
  - now split.
Qed.

Lemma connections_spec cs : forall levels,
  match for_each count_connection levels cs with
  | Ok levels' =>
      Forall is_Some (map (fun c => field_get (quantity c) 1%Z) cs)
      /\ sum4 levels'
         = (sum4 levels
            + quantity_sum (map (fun c => field_get (quantity c) 1%Z) cs))%Z
  | Raise e =>
      e = TypeError
      /\ ~ Forall is_Some (map (fun c => field_get (quantity c) 1%Z) cs)
  end.
Proof.
  induction cs as [|c cs IH]; intros levels; cbn [for_each map].
  - split; [constructor | cbn; lia].
  - pose proof (count_connection_spec levels c) as Hc.
    destruct (count_connection levels c) as [levels1|e]; cbn [mbind outcome_bind].
    + destruct Hc as (q & Hq & Hsum). specialize (IH levels1).
      destruct (for_each count_connection levels1 cs) as [levels2|e].
      * destruct IH as [Hall Hs]. split.
        -- constructor; [rewrite Hq; now eexists | exact Hall].
        -- rewrite Hq, quantity_sum_cons. lia.
      * destruct IH as [-> Hn]. split; [reflexivity|].
        intros H. apply Hn. now inversion H.
    + destruct Hc as [-> Hq]. split; [reflexivity|].
      intros H. inversion H as [|? ? [x Hx] _]. congruence.
Qed.

Lemma stations_spec stations : forall levels,
  match for_each (fun levels s => for_each count_connection levels (connections s))
          levels stations with
  | Ok levels' =>
      Forall is_Some (quantities stations)
      /\ sum4 levels' = (sum4 levels + quantity_sum (quantities stations))%Z
  | Raise e => e = TypeError /\ ~ Forall is_Some (quantities stations)
  end.
Proof.
  induction stations as [|s stations IH]; intros levels; cbn [for_each].
  - split; [constructor | cbn; lia].
  - pose proof (connections_spec (connections s) levels) as Hc.
    change (quantities (s :: stations))
      with (map (fun c => field_get (quantity c) 1%Z) (connections s)
            ++ quantities stations).
    destruct (for_each count_connection levels (connections s)) as [levels1|e];
      cbn [mbind outcome_bind].
    + destruct Hc as [Hall1 Hs1]. specialize (IH levels1).
      destruct (for_each _ levels1 stations) as [levels2|e].
      * destruct IH as [Hall2 Hs2]. split.
        -- apply Forall_app. now split.
        -- rewrite Hs2, Hs1, quantity_sum_app. lia.
      * destruct IH as [-> Hn]. split; [reflexivity|].
        intros H. apply Forall_app in H. tauto.
    + destruct Hc as [-> Hn]. split; [reflexivity|].
      intros H. apply Forall_app in H. tauto.
Qed.

(** The charging-level analysis returns exactly when every connection
    has a quantity (a quantity [None] is a [TypeError]); it never divides
    by zero, even without any connection; and the reported total is the
    sum of all quantities, split over the four levels. *)
Theorem charging_levels_report stations :
  (returns (_analyze_charging_levels stations)
   <-> Forall is_Some (quantities stations))
  /\ _analyze_charging_levels stations <> Raise ZeroDivisionError
  /\ (forall r, _analyze_charging_levels stations = Ok r ->
        levels_total r = quantity_sum (quantities stations)
        /\ sum4 (level_counts r) = levels_total r
        /\ length (level_percentages r) = 4%nat).
Proof.
  unfold _analyze_charging_levels.
  pose proof (stations_spec stations (mkLevels 0 0 0 0)) as Hs.
  destruct (for_each _ (mkLevels 0 0 0 0) stations) as [levels|e];
    cbn [mbind outcome_bind].
  - destruct Hs as [Hall Hsum]. cbn [level1 level2 level3 dc_fast] in Hsum.
    set (total := foldl Z.add 0%Z [level1 levels; level2 levels; level3 levels; dc_fast levels]).
    assert (Ht : total = sum4 levels) by (subst total; cbn [foldl]; lia).
    assert (Hd : forall c, div (of_int c) (of_int (Z.max total 1))
                           = Ok (of_int c / of_int (Z.max total 1))).
    { intros c. apply div_not_zero_division, InfrastructureFacts.of_int_nonzero. lia. }
    cbn [for_each]. rewrite !Hd. cbn [mbind outcome_bind].
    split; [split; [intros _; exact Hall | intros _; now eexists]|].
    split; [discriminate|].
    intros r [= <-]. cbn [levels_total level_counts level_percentages].
    split; [lia|]. split; [lia | reflexivity].
  - destruct Hs as [-> Hn]. split.
    + split; [intros [r Hr]; discriminate | intros H; contradiction].
    + split; [discriminate | intros r; discriminate].
Qed.

Lemma charging_levels_report_witness :
  exists r, _analyze_charging_levels sample_stations = Ok r
            /\ levels_total r = 5%Z.
Proof.
  destruct (_analyze_charging_levels sample_stations) as [r|e] eqn:E.
  - exists r. split; [reflexivity|].
    destruct (charging_levels_report sample_stations) as (_ & _ & H).
    destruct (H r E) as [Ht _]. rewrite Ht. reflexivity.
  - vm_compute in E. discriminate.
Defined.

(** *** Operators *)

Lemma counted_cons x ops : counted (x :: ops) = (op_count x.2 + counted ops)%Z.
Proof. reflexivity. Qed.

Lemma bump_counted name pts ops :
  counted (bump name pts ops) = (counted ops + 1)%Z.
Proof.
  induction ops as [|[k d] ops IH]; cbn [bump].
  - reflexivity.
  - destruct (decide (name = k)); rewrite !counted_cons; cbn [snd op_count]; lia.
Qed.

Lemma bump_positive name pts ops :
  Forall (fun x => (1 <= op_count x.2)%Z) ops ->
  Forall (fun x => (1 <= op_count x.2)%Z) (bump name pts ops).
Proof.
  induction 1 as [|[k d] ops Hd Hops IH]; cbn [bump].
  - constructor; [cbn; lia | constructor].
  - destruct (decide (name = k)); constructor; cbn in *; try lia; assumption.
Qed.

Lemma bump_keys name pts ops :
  map fst (bump name pts ops)
  = if decide (name ∈ map fst ops) then map fst ops else map fst ops ++ [name].
Proof.
  induction ops as [|[k d] ops IH]; cbn [bump map fst].
  - destruct (decide (name ∈ [])) as [H|_]; [inversion H | reflexivity].
  - destruct (decide (name = k)) as [->|Hne]; cbn [map fst].
    + destruct (decide (k ∈ k :: map fst ops)) as [_|H]; [reflexivity|].
      exfalso. apply H. constructor.
    + rewrite IH.
      destruct (decide (name ∈ map fst ops)) as [Hin|Hnin];
        destruct (decide (name ∈ k :: map fst ops)) as [Hin'|Hnin'];
        try reflexivity.
      * exfalso. apply Hnin'. now constructor.
      * exfalso. apply elem_of_cons in Hin' as [E|Hin']; [congruence | contradiction].
Qed.

Lemma bump_nodup name pts ops :
  NoDup (map fst ops) -> NoDup (map fst (bump name pts ops)).
Proof.
  intros H. rewrite bump_keys.
  destruct (decide (name ∈ map fst ops)) as [Hin|Hnin]; [exact H|].
  apply NoDup_app. split; [exact H|]. split.
  - intros x Hx Hx'. apply list_elem_of_singleton in Hx'. congruence.
  - apply NoDup_singleton.
Qed.

(** What [count_operators] keeps: every station is counted once, every
    operator appears once and has at least one station. *)
Lemma count_operators_spec stations : forall ops0,
  match for_each (fun operators s =>
                    let name := field_get (operator_name s) "Unknown" in
                    pts ← as_int (field_get (points s) 1%Z);
                    Ok (bump name pts operators)) ops0 stations with
  | Ok ops =>
      Forall (fun s => is_Some (field_get (points s) 1%Z)) stations
      /\ counted ops = (counted ops0 + Z.of_nat (length stations))%Z
      /\ (NoDup (map fst ops0) -> NoDup (map fst ops))
      /\ (Forall (fun x => (1 <= op_count x.2)%Z) ops0 ->
          Forall (fun x => (1 <= op_count x.2)%Z) ops)
  | Raise e =>
      e = TypeError
      /\ ~ Forall (fun s => is_Some (field_get (points s) 1%Z)) stations
  end.
Proof.
  induction stations as [|s stations IH]; intros ops0; cbn [for_each].
  - repeat split; try tauto; try constructor. cbn [length]. lia.
  - cbn zeta. destruct (field_get (points s) 1%Z) as [pts|] eqn:Hp;
      cbn [as_int mbind outcome_bind].
    + specialize (IH (bump (field_get (operator_name s) "Unknown") pts ops0)).
      destruct (for_each _ _ stations) as [ops|e].
      * destruct IH as (Hall & Hc & Hn & Hpos).
        split; [constructor; [rewrite Hp; now eexists | exact Hall]|].
        split; [rewrite Hc, bump_counted; cbn [length]; lia|].
        split; [intros H; now apply Hn, bump_nodup|].
        intros H; now apply Hpos, bump_positive.
      * destruct IH as [-> Hn]. split; [reflexivity|].
        intros H. apply Hn. now inversion H.
    + split; [reflexivity|]. intros H. inversion H as [|? ? [x Hx] _]. congruence.
Qed.

Lemma count_operators_ok stations ops :
  count_operators stations = Ok ops ->
  counted ops = Z.of_nat (length stations)
  /\ NoDup (map fst ops)
  /\ Forall (fun x => (1 <= op_count x.2)%Z) ops.
Proof.
  unfold count_operators. pose proof (count_operators_spec stations []) as Hspec.
  destruct (for_each _ [] stations) as [ops'|e]; [|discriminate].
  intros [= ->]. destruct Hspec as (_ & Hc & Hnd & Hpos).
  split; [rewrite Hc; reflexivity|].
  split; [apply Hnd, NoDup_nil_2 | apply Hpos, Forall_nil_2].
Qed.

(** The sort is a stable insertion sort: a permutation, by falling
    counts. *)
Local Abbreviation by_count :=
  (fun a b : op_key * OperatorData => (op_count b.2 <= op_count a.2)%Z).

Lemma insert_by_count_perm x l : insert_by_count x l ≡ₚ x :: l.
Proof.
  induction l as [|y l IH]; cbn [insert_by_count]; [reflexivity|].
  destruct (op_count x.2 <? op_count y.2)%Z; [|reflexivity].
  rewrite IH. apply Permutation_swap.
Qed.

Lemma sort_by_count_perm l : sort_by_count l ≡ₚ l.
Proof.
  induction l as [|x l IH]; [reflexivity|].
  change (sort_by_count (x :: l)) with (insert_by_count x (sort_by_count l)).
  now rewrite insert_by_count_perm, IH.
Qed.

Lemma insert_by_count_sorted x l :
  StronglySorted by_count l -> StronglySorted by_count (insert_by_count x l).
Proof.
  induction 1 as [|y l Hl IH Hy]; cbn [insert_by_count].
  - repeat constructor.
  - destruct (op_count x.2 <? op_count y.2)%Z eqn:E.
    + apply Z.ltb_lt in E. constructor; [exact IH|].
      rewrite insert_by_count_perm. constructor; [lia | exact Hy].
    + apply Z.ltb_ge in E. constructor; [now constructor|].
      constructor; [exact E|].
      eapply Forall_impl; [exact Hy|]. cbn. intros z Hz. lia.
Qed.

Lemma sort_by_count_sorted l : StronglySorted by_count (sort_by_count l).
Proof.
  induction l as [|x l IH]; [constructor|].
  change (sort_by_count (x :: l)) with (insert_by_count x (sort_by_count l)).
  now apply insert_by_count_sorted.
Qed.

Lemma counted_perm l1 l2 : l1 ≡ₚ l2 -> counted l1 = counted l2.
Proof.
  induction 1; rewrite ?counted_cons; lia.
Qed.

Lemma strongly_sorted_take {A} (R : A -> A -> Prop) n l :
  StronglySorted R l -> StronglySorted R (take n l).
Proof.
  intros H. revert n. induction H as [|x l Hl IH Hx]; intros [|n]; cbn [take];
    try constructor; [apply IH | now apply Forall_take].
Qed.

Lemma counted_nonneg ops :
  Forall (fun x => (1 <= op_count x.2)%Z) ops ->
  (Z.of_nat (length ops) <= counted ops)%Z.
Proof.
  induction 1 as [|x ops Hx _ IH]; [reflexivity|].
  rewrite counted_cons. cbn [length]. lia.
Qed.

Lemma counted_take n ops :
  Forall (fun x => (1 <= op_count x.2)%Z) ops ->
  (counted (take n ops) <= counted ops)%Z.
Proof.
  intros H. revert n. induction H as [|x ops Hx Hops IH]; intros [|n]; cbn [take];
    rewrite ?counted_cons; try reflexivity.
  - pose proof (counted_nonneg ops Hops). change (counted []) with 0%Z. lia.
  - specialize (IH n). lia.
Qed.

Lemma count_at_most_counted ops :
  Forall (fun x => (1 <= op_count x.2)%Z) ops ->
  Forall (fun x => (1 <= op_count x.2 <= counted ops)%Z) ops.
Proof.
  induction 1 as [|x ops Hx Hops IH]; constructor.
  - cbn beta. rewrite counted_cons. pose proof (counted_nonneg ops Hops). lia.
  - eapply Forall_impl; [exact IH|]. cbn beta. intros y Hy.
    rewrite counted_cons. lia.
Qed.

(** The entry of one operator in the distribution. *)
Local Abbreviation share_of total :=
  (fun item : op_key * OperatorData =>
     (item.1, mkShare (op_count item.2) (op_connectors item.2)
                (round1 (of_int (op_count item.2) / of_len total * 100)))).

Lemma distribution_loop total items : forall acc,
  items = [] \/ total <> 0%nat ->
  for_each (fun acc item =>
              q ← div (of_int (op_count item.2)) (of_len total);
              Ok (acc ++ [(item.1,
                           mkShare (op_count item.2) (op_connectors item.2)
                             (round1 (q * 100)))]))
    acc items
  = Ok (acc ++ map (share_of total) items).
Proof.
  induction items as [|x items IH]; intros acc H; cbn [for_each map].
  - now rewrite app_nil_r.
  - destruct H as [H|H]; [discriminate|].
    rewrite div_not_zero_division.
    2:{ destruct total as [|t]; [contradiction|]. apply DivisionFacts.of_len_positive. }
    cbn [mbind outcome_bind]. rewrite IH by now right.
    now rewrite <- app_assoc.
Qed.

Lemma listed_share_of total items :
  listed (map (share_of total) items) = counted items.
Proof.
  induction items as [|x items IH]; [reflexivity|].
  cbn [map]. rewrite counted_cons, <- IH. reflexivity.
Qed.

(** What [_analyze_operators] returns, in terms of the counted table. *)
Lemma analyze_operators_inv stations r :
  _analyze_operators stations = Ok r ->
  exists ops,
    count_operators stations = Ok ops
    /\ total_operators r = length ops
    /\ distribution r = map (share_of (length stations)) (take 10 (sort_by_count ops))
    /\ hhi_index r
       = WorldBank.round0
           (py_sum (map (fun d => (market_share d.2 / 100) ^ 2) (distribution r))
            * 10000).
Proof.
  unfold _analyze_operators, count_operators.
  pose proof (count_operators_spec stations []) as Hspec.
  destruct (for_each _ [] stations) as [ops|e]; [|discriminate].
  cbn [mbind outcome_bind]. destruct Hspec as (_ & Hc & _ & Hpos).
  rewrite distribution_loop.
  - cbn [mbind outcome_bind app]. intros [= <-]. exists ops.
    cbn [total_operators distribution hhi_index]. repeat split.
  - destruct stations as [|s stations]; [|right; discriminate].
    left. destruct ops as [|x ops]; [reflexivity|].
    exfalso. pose proof (counted_nonneg _ (Hpos (Forall_nil_2 _))) as Hlen.
    rewrite Hc in Hlen. cbn in Hlen. lia.
Qed.

Lemma share_of_sorted total l :
  StronglySorted by_count l -> StronglySorted larger_first (map (share_of total) l).
Proof.
  induction 1 as [|x l Hl IH Hx]; cbn [map]; constructor; [exact IH|].
  apply Forall_map. eapply Forall_impl; [exact Hx|]. now cbn.
Qed.

Lemma share_of_keys total l : map fst (map (share_of total) l) = map fst l.
Proof. induction l as [|x l IH]; [reflexivity|]. cbn [map fst]. now rewrite IH. Qed.

Lemma market_share_range (c : Z) (n : nat) :
  (1 <= c <= Z.of_nat n)%Z ->
  0 <= round1 (of_int c / of_len n * 100) <= 100.
Proof.
  intros [H1 Hn]. apply round1_unit_interval.
  assert (Hpos : 0 < of_len n).
  { unfold of_len. change 0 with (inject_Z 0). rewrite <- Zlt_Qlt. lia. }
  assert (Hc0 : 0 <= of_int c).
  { unfold of_int. change 0 with (inject_Z 0). rewrite <- Zle_Qle. lia. }
  assert (Hcn : of_int c <= of_len n).
  { unfold of_int, of_len. rewrite <- Zle_Qle. lia. }
  assert (Hlo : 0 <= of_int c / of_len n)
    by (apply Qle_shift_div_l; [exact Hpos | lra]).
  assert (Hhi : of_int c / of_len n <= 1)
    by (apply Qle_shift_div_r; [exact Hpos | lra]).
  lra.
Qed.

(** Whenever the operator analysis returns: there are at most as many
    operators as stations; the distribution lists the ten largest at most,
    each operator once, by falling station count; it accounts for no more
    stations than there are, and for all of them when there are at most ten
    operators; and every market share lies in [0,100]. *)
Theorem operators_report stations r :
  _analyze_operators stations = Ok r ->
  (total_operators r <= length stations)%nat
  /\ length (distribution r) = Nat.min 10 (total_operators r)
  /\ NoDup (map fst (distribution r))
  /\ StronglySorted larger_first (distribution r)
  /\ (listed (distribution r) <= Z.of_nat (length stations))%Z
  /\ ((total_operators r <= 10)%nat ->
      listed (distribution r) = Z.of_nat (length stations))
  /\ Forall (fun x => (1 <= share_stations x.2)%Z /\ 0 <= market_share x.2 <= 100)
        (distribution r).
Proof.
  intros Hr. destruct (analyze_operators_inv _ _ Hr) as (ops & Hops & -> & -> & _).
  destruct (count_operators_ok _ _ Hops) as (Hc & Hnd & Hpos).
  pose proof (sort_by_count_perm ops) as Hperm.
  set (sorted := sort_by_count ops) in *.
  assert (Hcs : counted sorted = Z.of_nat (length stations))
    by (rewrite (counted_perm _ _ Hperm); exact Hc).
  assert (Hps : Forall (fun x => (1 <= op_count x.2)%Z) sorted)
    by (rewrite Hperm; exact Hpos).
  assert (Hlen : length sorted = length ops) by now rewrite Hperm.
  split; [pose proof (counted_nonneg ops Hpos); lia|].
  split; [now rewrite length_map, length_take, Hlen|].
  split.
  { rewrite share_of_keys. change (map fst (take 10 sorted)) with (fst <$> take 10 sorted).
    rewrite fmap_take. apply (sublist_NoDup _ (fst <$> sorted)); [|apply sublist_take].
    change (fst <$> sorted) with (map fst sorted). now rewrite Hperm. }
  split; [apply share_of_sorted, strongly_sorted_take, sort_by_count_sorted|].
  rewrite listed_share_of.
  split; [rewrite <- Hcs; now apply counted_take|].
  split; [intros H; rewrite take_ge by lia; exact Hcs|].
  apply Forall_map, Forall_take.
  eapply Forall_impl; [exact (count_at_most_counted sorted Hps)|].
  cbn beta. intros x Hx. cbn [snd share_stations market_share].
  split; [lia|]. apply market_share_range. lia.
Qed.

Lemma operators_report_witness :
  exists r, _analyze_operators sample_stations = Ok r
            /\ (total_operators r <= length sample_stations)%nat.
Proof.
  destruct (_analyze_operators sample_stations) as [r|e] eqn:E.
  - exists r. split; [reflexivity|].
    exact (proj1 (operators_report sample_stations r E)).
  - vm_compute in E. discriminate.
Defined.

(** The operator analysis returns exactly when every station has a
    number of points (a value [None] is a [TypeError]); it never divides by
    zero; and without stations it reports no operator, the top operator
    "N/A", an index of 0 and a competitive market. *)
Theorem operators_without_division_error stations :
  (returns (_analyze_operators stations)
   <-> Forall (fun s => is_Some (field_get (points s) 1%Z)) stations)
  /\ _analyze_operators stations <> Raise ZeroDivisionError
  /\ _analyze_operators [] = Ok (mkOperatorReport 0 [] (Some "N/A") 0 "Competitive").
Proof.
  split; [|split; [|reflexivity]].
  - split.
    + intros [r Hr]. destruct (analyze_operators_inv _ _ Hr) as (ops & Hops & _).
      unfold count_operators in Hops.
      pose proof (count_operators_spec stations []) as Hspec.
      destruct (for_each _ [] stations) as [ops'|e]; [|discriminate].
      apply Hspec.
    + intros Hall. unfold _analyze_operators, count_operators.
      pose proof (count_operators_spec stations []) as Hspec.
      destruct (for_each _ [] stations) as [ops|e].
      * cbn [mbind outcome_bind]. destruct Hspec as (_ & Hc & _ & Hpos).
        rewrite distribution_loop; [now eexists|].
        destruct stations as [|s stations]; [|right; discriminate].
        left. destruct ops as [|x ops]; [reflexivity|].
        exfalso. pose proof (counted_nonneg _ (Hpos (Forall_nil_2 _))) as Hlen.
        rewrite Hc in Hlen. cbn in Hlen. lia.
      * destruct Hspec as [_ Hn]. contradiction.
  - unfold _analyze_operators, count_operators.
    pose proof (count_operators_spec stations []) as Hspec.
    destruct (for_each _ [] stations) as [ops|e].
    + cbn [mbind outcome_bind]. destruct Hspec as (_ & Hc & _ & Hpos).
      rewrite distribution_loop; [discriminate|].
      destruct stations as [|s stations]; [|right; discriminate].
      left. destruct ops as [|x ops]; [reflexivity|].
      exfalso. pose proof (counted_nonneg _ (Hpos (Forall_nil_2 _))) as Hlen.
      rewrite Hc in Hlen. cbn in Hlen. lia.
    + destruct Hspec as [-> _]. discriminate.
Qed.

(** One operator for all stations. *)
Lemma single_operator_table name stations : forall ops0,
  Forall (fun s => field_get (operator_name s) "Unknown" = name
                   /\ is_Some (field_get (points s) 1%Z)) stations ->
  ops0 = [] /\ stations <> [] \/ (exists d, ops0 = [(name, d)]) ->
  exists d,
    for_each (fun operators s =>
                let name := field_get (operator_name s) "Unknown" in
                pts ← as_int (field_get (points s) 1%Z);
                Ok (bump name pts operators)) ops0 stations
    = Ok [(name, d)].
Proof.
  induction stations as [|s stations IH]; intros ops0 Hall Hops; cbn [for_each].
  - destruct Hops as [[_ H] | [d ->]]; [contradiction | now exists d].
  - inversion Hall as [|? ? [Hname [pts Hpts]] Hall']; subst.
    cbn zeta. rewrite Hpts. cbn [as_int mbind outcome_bind].
    apply IH; [exact Hall'|]. right.
    destruct Hops as [[-> _] | [d ->]]; cbn [bump].
    + now eexists.
    + destruct (decide _) as [_|Hne]; [now eexists | contradiction].
Qed.

(** When all stations belong to one operator the analysis reports that
    operator alone, with all stations, a market share of 100, an index of
    10000 and a concentrated market. *)
Theorem single_operator_market name stations :
  stations <> [] ->
  Forall (fun s => field_get (operator_name s) "Unknown" = name
                   /\ is_Some (field_get (points s) 1%Z)) stations ->
  exists r sh,
    _analyze_operators stations = Ok r
    /\ total_operators r = 1%nat
    /\ top_operator r = name
    /\ distribution r = [(name, sh)]
    /\ share_stations sh = Z.of_nat (length stations)
    /\ market_share sh == 100
    /\ hhi_index r == 10000
    /\ market_concentration r = "Concentrated".
Proof.
  intros Hne Hall.
  destruct (single_operator_table name stations [] Hall (or_introl (conj eq_refl Hne)))
    as [d Hd].
  assert (Hops : count_operators stations = Ok [(name, d)]) by exact Hd.
  destruct (count_operators_ok _ _ Hops) as (Hc & _ & _).
  rewrite counted_cons in Hc. change (counted []) with 0%Z in Hc.
  cbn [snd] in Hc. rewrite Z.add_0_r in Hc.
  unfold _analyze_operators. rewrite Hops. cbn [mbind outcome_bind].
  rewrite distribution_loop
    by (right; destruct stations; [contradiction | discriminate]).
  cbn [mbind outcome_bind sort_by_count foldr insert_by_count take map app fst snd].
  eexists _, _. split; [reflexivity|].
  cbn [total_operators top_operator distribution hhi_index market_concentration
       length fst snd share_stations market_share].
  set (n := length stations) in *.
  assert (Hn : ~ of_len n == 0).
  { destruct stations; [contradiction|]. apply DivisionFacts.of_len_positive. }
  assert (Hms : round1 (of_int (op_count d) / of_len n * 100) == 100).
  { rewrite Hc. change (of_int (Z.of_nat n)) with (of_len n).
    assert (E : of_len n / of_len n * 100 == 100) by (field; exact Hn).
    rewrite E. reflexivity. }
  assert (Hhhi : py_sum [(round1 (of_int (op_count d) / of_len n * 100) / 100) ^ 2]
                 * 10000 == 10000).
  { unfold py_sum. cbn [foldl]. rewrite Hms. reflexivity. }
  split; [reflexivity|]. split; [reflexivity|]. split; [reflexivity|].
  split; [exact Hc|]. split; [exact Hms|]. split.
  - unfold WorldBank.round0. rewrite Hhhi. reflexivity.
  - assert (H1 : ltb (py_sum [(round1 (of_int (op_count d) / of_len n * 100) / 100) ^ 2]
                      * 10000) 1500 = false) by (apply ltb_ge; lra).
    assert (H2 : ltb (py_sum [(round1 (of_int (op_count d) / of_len n * 100) / 100) ^ 2]
                      * 10000) 2500 = false) by (apply ltb_ge; lra).
    now rewrite H1, H2.
Qed.

Lemma single_operator_market_witness :
  exists r, _analyze_operators (take 1 sample_stations) = Ok r
            /\ total_operators r = 1%nat
            /\ market_concentration r = "Concentrated".
Proof.
  assert (Hne : take 1 sample_stations <> []) by discriminate.
  assert (Hall : Forall (fun s => field_get (operator_name s) "Unknown"
                                  = Some "ChargePoint"
                                  /\ is_Some (field_get (points s) 1%Z))
                   (take 1 sample_stations)).
  { repeat constructor. now eexists. }
  destruct (single_operator_market (Some "ChargePoint") (take 1 sample_stations) Hne Hall)
    as (r & sh & Hr & Ht & _ & _ & _ & _ & _ & Hm).
  exists r. split; [exact Hr | split; [exact Ht | exact Hm]].
Defined.

End StationAnalysisFacts.

(** ** Census rates *)

Module CensusFacts.
Import Census.




End CensusFacts.

(** ** Convenience score: growth and saturation *)

Module ConvenienceFacts.
Import Overpass OverpassFacts.

Section Growth.
Context {POI : Type}.

Local Abbreviation n pois := (count (category_counts (POI:=POI) pois)).

Lemma total_score_eq (pois : gmap string (list POI)) :
  total_score (calculate_convenience_score pois) == capped_sum pois.
Proof.
  unfold calculate_convenience_score. cbn [total_score].
  destruct (unrounded_total_tenths pois) as [z Hz].
  rewrite Hz at 1. rewrite round1_tenths, <- Hz. apply unrounded_total.
Qed.

Lemma grade_of_convenience (pois : gmap string (list POI)) :
  convenience_grade (calculate_convenience_score pois)
  = _get_grade (py_sum (map snd (category_scores (category_counts pois)))).
Proof. reflexivity. Qed.

(** More points of interest never lower the convenience score. *)
Theorem convenience_grows_with_counts (pois1 pois2 : gmap string (list POI)) :
  (forall cat, n pois1 cat <= n pois2 cat) ->
  total_score (calculate_convenience_score pois1)
  <= total_score (calculate_convenience_score pois2).
Proof.
  intros H. rewrite !total_score_eq. unfold capped_sum. cbn zeta.
  pose proof (H "dining"). pose proof (H "shopping"). pose proof (H "services").
  pose proof (H "transit"). pose proof (H "healthcare"). pose proof (H "entertainment").
  repeat apply Qplus_le_compat; apply Q.min_le_compat_r; lra.
Qed.

(** The score reaches its maximum of 10, and with it the grade A, exactly
    when there are at least five dining, shopping, service and transit
    places and at least two healthcare and entertainment places. *)
Theorem convenience_maximum (pois : gmap string (list POI)) :
  let r := calculate_convenience_score pois in
  (total_score r == 10
   <-> 5 <= n pois "dining" /\ 5 <= n pois "shopping" /\ 5 <= n pois "services"
       /\ 5 <= n pois "transit" /\ 2 <= n pois "healthcare"
       /\ 2 <= n pois "entertainment")
  /\ (total_score r == 10 -> convenience_grade r = "A").
Proof.
  cbn zeta.
  assert (Hiff : capped_sum pois == 10
    <-> 5 <= n pois "dining" /\ 5 <= n pois "shopping" /\ 5 <= n pois "services"
        /\ 5 <= n pois "transit" /\ 2 <= n pois "healthcare"
        /\ 2 <= n pois "entertainment").
  { unfold capped_sum. cbn zeta.
    repeat match goal with
    | |- context [Qmin ?x ?y] =>
        let H := fresh "M" in
        destruct (Q.min_spec x y) as [[? H] | [? H]]; rewrite H
    end; split; intros; repeat split; try lra;
    repeat match goal with H : _ /\ _ |- _ => destruct H end; lra. }
  split; [rewrite total_score_eq; exact Hiff|].
  intros H. rewrite total_score_eq in H.
  rewrite grade_of_convenience. pose proof (unrounded_total pois) as Hu.
  rewrite H in Hu. unfold _get_grade.
  assert (G : geb (py_sum (map snd (category_scores (category_counts pois)))) 8.5 = true)
    by (apply geb_le; lra).
  now rewrite G.
Qed.

End Growth.

Lemma convenience_maximum_witness :
  total_score (calculate_convenience_score Samples.saturated) == 10
  /\ convenience_grade (calculate_convenience_score Samples.saturated) = "A".
Proof.
  assert (H : total_score (calculate_convenience_score Samples.saturated) == 10)
    by reflexivity.
  split; [exact H|]. exact (proj2 (convenience_maximum Samples.saturated) H).
Defined.

Lemma convenience_grows_with_counts_witness :
  total_score (calculate_convenience_score (∅ : gmap string (list unit)))
  <= total_score (calculate_convenience_score ten_dining).
Proof.
  apply (convenience_grows_with_counts (∅ : gmap string (list unit)) ten_dining).
  intros cat. unfold count, of_len, category_counts.
  rewrite <- Zle_Qle. rewrite fmap_empty, lookup_empty. cbn [default]. lia.
Defined.

End ConvenienceFacts.

(** ** Categorising points of interest *)

Module CategorizeFacts.
Import Categorize Overpass.

Local Abbreviation names :=
  ["dining"; "shopping"; "services"; "transit"; "healthcare"; "entertainment"; "other"].

Lemma category_of_names e : category_of e ∈ names.
Proof.
  unfold category_of.
  repeat match goal with
  | |- context [if ?b then _ else _] => destruct b
  end; set_solver.
Qed.

Lemma lookup_empty_categories k :
  empty_categories !! k = if decide (k ∈ names) then Some [] else None.
Proof.
  unfold empty_categories.
  destruct (decide (k ∈ names)) as [Hin|Hnin].
  - repeat (apply elem_of_cons in Hin as [->|Hin]; [reflexivity|]).
    inversion Hin.
  - repeat (rewrite lookup_insert_ne by (intros <-; apply Hnin; set_solver)).
    apply lookup_empty.
Qed.

Lemma parsed_in_cons k e els :
  parsed_in k (e :: els)
  = match located e with
    | Some (y, x) =>
        if String.eqb (category_of e) k then parse e y x :: parsed_in k els
        else parsed_in k els
    | None => parsed_in k els
    end.
Proof.
  unfold parsed_in. cbn [omap list_omap].
  destruct (located e) as [[y x]|]; [|reflexivity].
  now destruct (String.eqb (category_of e) k).
Qed.

Lemma categorize_from els : forall (m : gmap string (list Parsed)) k,
  (forall e, is_Some (m !! category_of e)) ->
  foldl categorize_element m els !! k
  = (fun l => l ++ parsed_in k els) <$> (m !! k).
Proof.
  induction els as [|e els IH]; intros m k Hm; cbn [foldl].
  - destruct (m !! k); cbn; [now rewrite app_nil_r | reflexivity].
  - rewrite IH, parsed_in_cons.
    + unfold categorize_element. destruct (located e) as [[y x]|]; [|reflexivity].
      cbn zeta. destruct (String.eqb (category_of e) k) eqn:E.
      * apply String.eqb_eq in E. subst k. rewrite lookup_insert_eq.
        destruct (Hm e) as [l ->]. cbn. now rewrite <- app_assoc.
      * apply String.eqb_neq in E. now rewrite lookup_insert_ne.
    + intros e'. unfold categorize_element.
      destruct (located e) as [[y x]|]; [|apply Hm].
      cbn zeta. apply lookup_insert_is_Some'. right. apply Hm.
Qed.

Lemma categories_hold_their_branch_aux els k :
  _categorize_elements els !! k
  = if decide (k ∈ names) then Some (parsed_in k els) else None.
Proof.
  unfold _categorize_elements. rewrite categorize_from.
  - rewrite lookup_empty_categories. now destruct (decide (k ∈ names)).
  - intros e. rewrite lookup_empty_categories.
    destruct (decide _) as [_|H]; [now eexists|].
    exfalso. apply H, category_of_names.
Qed.

(** Each of the seven categories holds, in the order they came, the
    elements that have coordinates and take that branch of the chain;
    there is no other category. *)
Theorem categories_hold_their_branch els k :
  _categorize_elements els !! k
  = if decide (k ∈ names) then Some (parsed_in k els) else None.
Proof. apply categories_hold_their_branch_aux. Qed.

Local Abbreviation seven f :=
  (<["other" := f "other"]> (<["entertainment" := f "entertainment"]>
   (<["healthcare" := f "healthcare"]> (<["transit" := f "transit"]>
   (<["services" := f "services"]> (<["shopping" := f "shopping"]>
   (<["dining" := f "dining"]> ∅))))))).

Lemma lookup_seven {A} (f : string -> A) k :
  (seven f : gmap string A) !! k = if decide (k ∈ names) then Some (f k) else None.
Proof.
  destruct (decide (k ∈ names)) as [Hin|Hnin].
  - repeat (apply elem_of_cons in Hin as [->|Hin]; [reflexivity|]).
    inversion Hin.
  - repeat (rewrite lookup_insert_ne by (intros <-; apply Hnin; set_solver)).
    apply lookup_empty.
Qed.

Lemma categorize_explicit els :
  _categorize_elements els = seven (fun k => parsed_in k els).
Proof.
  apply map_eq. intros k.
  rewrite categories_hold_their_branch_aux.
  symmetry. apply (lookup_seven (fun k => parsed_in k els)).
Qed.

Lemma located_partition els :
  (length (parsed_in "dining" els) + length (parsed_in "shopping" els)
   + length (parsed_in "services" els) + length (parsed_in "transit" els)
   + length (parsed_in "healthcare" els) + length (parsed_in "entertainment" els)
   + length (parsed_in "other" els))%nat
  = length (filter (fun e => is_located e = true) els).
Proof.
  induction els as [|e els IH]; [reflexivity|].
  rewrite !parsed_in_cons, filter_cons.
  destruct (decide (is_located e = true)) as [H|H]; unfold is_located in H;
    destruct (located e) as [[y x]|]; try discriminate; try contradiction.
  - cbn [length]. rewrite <- IH.
    pose proof (category_of_names e) as Hin.
    repeat (apply elem_of_cons in Hin as [->|Hin]; [cbn; lia|]).
    inversion Hin.
  - exact IH.
Qed.

(** After categorising, the total the convenience score reports is the
    number of elements that have coordinates, and each category count is
    the number of such elements taking that branch. *)
Theorem located_elements_are_counted els :
  total_pois (calculate_convenience_score (_categorize_elements els))
  = length (filter (fun e => is_located e = true) els)
  /\ forall cat, cat ∈ names ->
       counts_by_category (calculate_convenience_score (_categorize_elements els)) !! cat
       = Some (length (parsed_in cat els)).
Proof.
  split.
  - unfold calculate_convenience_score, category_counts. cbn [total_pois].
    rewrite categorize_explicit, !fmap_insert, fmap_empty.
    repeat (rewrite map_fold_insert_L; [| intros; lia | reflexivity]).
    rewrite map_fold_empty, <- located_partition. lia.
  - intros cat Hin. unfold calculate_convenience_score, category_counts.
    cbn [counts_by_category]. rewrite lookup_fmap, categories_hold_their_branch_aux.
    now destruct (decide (cat ∈ names)).
Qed.

Lemma located_elements_are_counted_witness :
  counts_by_category (calculate_convenience_score (_categorize_elements [supermarket]))
    !! "other" = Some 1%nat.
Proof.
  destruct (located_elements_are_counted [supermarket]) as [_ H].
  rewrite (H "other") by set_solver. reflexivity.
Defined.

(** A shop tag decides the category unless the amenity is a dining one;
    and the "shopping", "transit" and "parking" amenity lists are never
    consulted: such an amenity without shop tag, bus stop or railway lands
    in "other". *)
Theorem shop_tag_and_unread_lists e :
  (nonempty (shop e) = true ->
   category_of e = if EquityAssessment.in_list (amenity e) (amenities "dining")
                   then "dining" else "shopping")
  /\ (shop e = "" -> highway e <> "bus_stop" -> railway e = "" ->
      EquityAssessment.in_list (amenity e)
        (amenities "shopping" ++ amenities "transit" ++ amenities "parking") = true ->
      category_of e = "other").
Proof.
  split.
  - intros Hs. unfold category_of. rewrite Hs.
    destruct (EquityAssessment.in_list _ (amenities "dining")); [reflexivity|].
    now rewrite orb_true_r.
  - intros Hs Hh Hr Ha. unfold category_of. rewrite Hs, Hr.
    apply String.eqb_neq in Hh. rewrite Hh.
    unfold EquityAssessment.in_list in Ha. apply existsb_exists in Ha as (a & Hin & Ha).
    apply String.eqb_eq in Ha. subst a.
    apply List.in_app_or in Hin as [Hin | Hin];
      [|apply List.in_app_or in Hin as [Hin | Hin]];
      repeat (destruct Hin as [<- | Hin]; [reflexivity|]); destruct Hin.
Qed.

Lemma shop_tag_and_unread_lists_witness :
  category_of supermarket = "other".
Proof.
  apply (proj2 (shop_tag_and_unread_lists supermarket)); try reflexivity.
  discriminate.
Defined.

End CategorizeFacts.

(** ** Accessibility of a location *)

Module AccessibilityFacts.
Import Infrastructure Overpass Accessibility.

Section LocationFacts.
Context {POI : Type} (pois_around : Q -> Q -> gmap string (list POI)).

Lemma graded_insert (m : gmap string nat) k :
  graded (<[k := (default 0%nat (m !! k) + 1)%nat]> m) = (graded m + 1)%nat.
Proof.
  unfold graded. destruct (m !! k) as [v|] eqn:E.
  - rewrite <- (insert_delete_eq m k) at 1.
    rewrite <- (insert_id m k v E) at 2. rewrite <- (insert_delete_eq m k v) at 1.
    rewrite !map_fold_insert_L; try (intros; lia); try apply lookup_delete_eq.
    cbn. lia.
  - rewrite map_fold_insert_L; [cbn; lia | intros; lia | exact E].
Qed.

Lemma graded_count (l : list (option Convenience)) : forall m,
  graded (foldl count_grade m l) = (graded m + length l)%nat.
Proof.
  induction l as [|a l IH]; intros m; cbn [foldl length]; [lia|].
  rewrite IH. unfold count_grade. cbn zeta. rewrite graded_insert. lia.
Qed.

Lemma sum_bounds lo hi (l : list Q) : forall a,
  Forall (fun x => lo <= x <= hi) l ->
  a + lo * of_len (length l) <= foldl Qplus a l <= a + hi * of_len (length l).
Proof.
  induction l as [|x l IH]; intros a Hall; cbn [foldl length].
  - change (of_len 0) with 0. lra.
  - inversion Hall as [|? ? Hx Hl]; subst. specialize (IH (a + x) Hl).
    assert (E : of_len (S (length l)) == of_len (length l) + 1).
    { unfold of_len. rewrite Nat2Z.inj_succ, <- Z.add_1_r, inject_Z_plus. reflexivity. }
    rewrite E. nra.
Qed.

Lemma average_bounds lo hi x (l : list Q) :
  Forall (fun y => lo <= y <= hi) (x :: l) ->
  lo <= py_sum (x :: l) / of_len (length (x :: l)) <= hi.
Proof.
  intros Hall. pose proof (sum_bounds lo hi (x :: l) 0 Hall) as [H1 H2].
  fold (py_sum (x :: l)) in H1, H2.
  assert (Hpos : 0 < of_len (length (x :: l))).
  { unfold of_len. change 0 with (inject_Z 0). rewrite <- Zlt_Qlt. cbn [length]. lia. }
  split.
  - apply Qle_shift_div_l; [exact Hpos | lra].
  - apply Qle_shift_div_r; [exact Hpos | lra].
Qed.

Lemma min_list_le x (l : list Q) :
  Forall (fun y => py_min_list x l <= y) (x :: l).
Proof.
  unfold py_min_list.
  assert (H : forall a, foldl pymin a l <= a /\ Forall (fun y => foldl pymin a l <= y) l).
  { induction l as [|y l IH]; intros a; cbn [foldl]; [split; [lra | constructor]|].
    destruct (IH (pymin a y)) as [H1 H2].
    pose proof (pymin_le_l a y). pose proof (pymin_le_r a y).
    split; [lra|]. constructor; [lra | exact H2]. }
  destruct (H x) as [H1 H2]. now constructor.
Qed.

Lemma max_list_ge x (l : list Q) :
  Forall (fun y => y <= py_max_list x l) (x :: l).
Proof.
  unfold py_max_list.
  assert (H : forall a, a <= foldl pymax a l /\ Forall (fun y => y <= foldl pymax a l) l).
  { induction l as [|y l IH]; intros a; cbn [foldl]; [split; [lra | constructor]|].
    destruct (IH (pymax a y)) as [H1 H2].
    pose proof (pymax_ge_l a y). pose proof (pymax_ge_r a y).
    split; [lra|]. constructor; [lra | exact H2]. }
  destruct (H x) as [H1 H2]. now constructor.
Qed.

Lemma station_scores_range l :
  Forall (fun y => 0 <= y <= 10)
    (omap (fmap total_score) (map (analyze_station_accessibility pois_around) l)).
Proof.
  induction l as [|s l IH]; cbn [map omap list_omap]; [constructor|].
  destruct (analyze_station_accessibility pois_around s) as [c|] eqn:E;
    cbn [fmap option_fmap option_map]; [|exact IH].
  constructor; [|exact IH].
  unfold analyze_station_accessibility in E.
  destruct (coordinate latitude s), (coordinate longitude s); try discriminate.
  destruct (_ && _); [|discriminate]. injection E as <-.
  rewrite ConvenienceFacts.total_score_eq. apply OverpassFacts.capped_sum_range.
Qed.

(** For a non-empty station list the accessibility summary is always
    produced, without division error even when no sampled station has
    coordinates.  It analyses min(sample_size, stations) stations, its
    grade distribution accounts for every analysed station (a station
    without coordinates counts as F), and the average lies in [0,10],
    between the minimum and the maximum. *)
Theorem accessibility_summary (stations : list Station) (sample_size : nat) :
  stations <> [] ->
  exists s,
    analyze_location_accessibility pois_around stations sample_size = Ok (Some s)
    /\ stations_analyzed s = Nat.min sample_size (length stations)
    /\ graded (grade_distribution s) = stations_analyzed s
    /\ 0 <= avg_convenience_score s <= 10
    /\ min_convenience_score s <= avg_convenience_score s
    /\ avg_convenience_score s <= max_convenience_score s.
Proof.
  intros Hne. unfold analyze_location_accessibility.
  destruct stations as [|s0 rest]; [contradiction|].
  set (stations := s0 :: rest).
  set (detailed := map (analyze_station_accessibility pois_around)
                     (take sample_size stations)).
  pose proof (station_scores_range (take sample_size stations)) as Hrange.
  fold detailed in Hrange.
  assert (Hlen : length detailed = Nat.min sample_size (length stations))
    by (subst detailed; now rewrite length_map, length_take).
  assert (Hgr : graded (foldl count_grade initial_grades detailed) = length detailed)
    by (rewrite graded_count; reflexivity).
  destruct (omap (fmap total_score) detailed) as [|x xs] eqn:Es.
  - cbn [mbind outcome_bind]. eexists. split; [reflexivity|].
    cbn [stations_analyzed grade_distribution avg_convenience_score
         min_convenience_score max_convenience_score].
    split; [exact Hlen|]. split; [exact Hgr|].
    assert (E : round1 0 == 0) by reflexivity. rewrite E. repeat split; lra.
  - rewrite div_not_zero_division by apply DivisionFacts.of_len_positive.
    cbn [mbind outcome_bind]. eexists. split; [reflexivity|].
    cbn [stations_analyzed grade_distribution avg_convenience_score
         min_convenience_score max_convenience_score].
    split; [exact Hlen|]. split; [exact Hgr|].
    pose proof (average_bounds 0 10 x xs Hrange) as Havg.
    pose proof (min_list_le x xs) as Hmin. pose proof (max_list_ge x xs) as Hmax.
    assert (Hlo : py_min_list x xs <= py_sum (x :: xs) / of_len (length (x :: xs))).
    { apply (average_bounds (py_min_list x xs) (py_max_list x xs) x xs).
      rewrite Forall_forall in Hmin, Hmax. apply Forall_forall. intros y Hy.
      split; [now apply Hmin | now apply Hmax]. }
    assert (Hhi : py_sum (x :: xs) / of_len (length (x :: xs)) <= py_max_list x xs).
    { apply (average_bounds (py_min_list x xs) (py_max_list x xs) x xs).
      rewrite Forall_forall in Hmin, Hmax. apply Forall_forall. intros y Hy.
      split; [now apply Hmin | now apply Hmax]. }
    split.
    { split; [apply (round1_ge _ 0 0); [reflexivity | lra]
             | apply (round1_le _ 10 100); [reflexivity | lra]]. }
    split; now apply round1_mono.
Qed.

(** The overall grade uses the table of the per-station grade. *)
Lemma overall_grade_table (avg_score : Q) :
  _calculate_overall_grade avg_score = _get_grade avg_score.
Proof. reflexivity. Qed.

End LocationFacts.

Lemma accessibility_summary_witness :
  exists s,
    analyze_location_accessibility (fun _ _ => ten_dining) scenario_B 10 = Ok (Some s)
    /\ stations_analyzed s = 4%nat.
Proof.
  assert (H : scenario_B <> []) by discriminate.
  destruct (accessibility_summary (fun _ _ => ten_dining) scenario_B 10 H)
    as (s & Hs & Hn & _).
  exists s. split; [exact Hs | exact Hn].
Defined.

End AccessibilityFacts.

(** ** Distribution: what a scored distribution can be *)

Module DistributionFacts.
Import Infrastructure InfrastructureFacts.

(** Whenever the distribution is scored, that is the result holds the
    quadrant counts, the evenness score lies in [0.67,1] and the rating is
    Even or Moderate: the ratings Uneven and Clustered are never given. *)
Theorem distribution_is_never_uneven stations d q :
  _calculate_distribution stations = Ok d ->
  dist_quadrants d = Some q ->
  0.67 <= dist_score d <= 1
  /\ (dist_rating d = "Even" \/ dist_rating d = "Moderate").
Proof. apply scored_distribution_at_least_two_thirds. Qed.

Lemma distribution_is_never_uneven_witness :
  exists d, _calculate_distribution colocated = Ok d
    /\ 0.67 <= dist_score d <= 1
    /\ (dist_rating d = "Even" \/ dist_rating d = "Moderate").
Proof.
  assert (H : exists d, _calculate_distribution colocated = Ok d
                        /\ dist_quadrants d = Some (mkQuadrants 4 0 0 0)).
  { eexists. split; [vm_compute; reflexivity | reflexivity]. }
  destruct H as (d & Hd & Hq).
  exists d. split; [exact Hd|].
  exact (distribution_is_never_uneven colocated d _ Hd Hq).
Defined.

(** When the four quadrants hold the same number of stations the
    evenness score is 1 and the rating Even. *)
Theorem equal_quadrants_are_even stations d k :
  _calculate_distribution stations = Ok d ->
  dist_quadrants d = Some (mkQuadrants k k k k) ->
  dist_score d == 1 /\ dist_rating d = "Even".
Proof. apply equal_quadrants_score_one. Qed.

Lemma equal_quadrants_are_even_witness :
  exists d, _calculate_distribution scenario_B = Ok d
    /\ dist_score d == 1 /\ dist_rating d = "Even".
Proof.
  assert (H : exists d, _calculate_distribution scenario_B = Ok d
                        /\ dist_quadrants d = Some (mkQuadrants 1 1 1 1)).
  { eexists. split; [vm_compute; reflexivity | reflexivity]. }
  destruct H as (d & Hd & Hq).
  exists d. split; [exact Hd|].
  exact (equal_quadrants_are_even scenario_B d 1%Z Hd Hq).
Defined.

End DistributionFacts.

(** ** Denominators that are tested *)

Module GuardFacts.
Import Equity Census Infrastructure DivisionFacts.


End GuardFacts.
